(** * XML language server: the formatter of [xmlServer.ts]

    A shallow embedding of [formatXml], [formatXmlDocument],
    [formatXmlDocumentRange] and of the two formatting request handlers
    registered by [startServer], with the properties of the formatter
    proved over it.

    JavaScript strings are sequences of UTF-16 code units; they are
    modelled as lists of code units, so that [length] is [String.length]
    and the white space set of [trim] is the one of ECMAScript. *)

From Stdlib Require Import NArith ZArith Bool Ascii Lia.
From Stdlib Require String.
Import String.StringSyntax.
Open Scope string_scope.
From Stdlib Require Import List.
Import ListNotations.
Open Scope list_scope.

Abbreviation string := String.string.

Local Open Scope N_scope.

(** ** JavaScript strings *)

Module JsString.

Definition char := N.
Definition jsstring := list char.

(** A string literal of the development as a JavaScript string. *)
Definition u (s : string) : jsstring :=
  map N_of_ascii (String.list_ascii_of_string s).

Definition TAB : char := 9.
Definition LF : char := 10.
Definition CR : char := 13.
Definition SPACE : char := 32.

(** ECMAScript [WhiteSpace] and [LineTerminator] code points, the ones
    stripped by [String.prototype.trim] and [trimEnd]. *)
Definition isWhiteSpace (c : char) : bool :=
  (c =? 9) || (c =? 10) || (c =? 11) || (c =? 12) || (c =? 13) || (c =? 32)
  || (c =? 160) || (c =? 5760) || ((8192 <=? c) && (c <=? 8202))
  || (c =? 8232) || (c =? 8233) || (c =? 8239) || (c =? 8287)
  || (c =? 12288) || (c =? 65279).

Fixpoint eqb (a b : jsstring) : bool :=
  match a, b with
  | [], [] => true
  | x :: a', y :: b' => (x =? y) && eqb a' b'
  | _, _ => false
  end.

Fixpoint trimStart (s : jsstring) : jsstring :=
  match s with
  | [] => []
  | c :: s' => if isWhiteSpace c then trimStart s' else s
  end.

Definition trimEnd (s : jsstring) : jsstring := rev (trimStart (rev s)).

Definition trim (s : jsstring) : jsstring := trimEnd (trimStart s).

Fixpoint startsWith (p s : jsstring) : bool :=
  match p, s with
  | [], _ => true
  | _ :: _, [] => false
  | x :: p', y :: s' => (x =? y) && startsWith p' s'
  end.

Definition endsWith (p s : jsstring) : bool := startsWith (rev p) (rev s).

Fixpoint includes (p s : jsstring) : bool :=
  startsWith p s || match s with [] => false | _ :: s' => includes p s' end.

(** [s.repeat(n)] *)
Fixpoint repeat (s : jsstring) (n : nat) : jsstring :=
  match n with
  | O => []
  | S n' => s ++ repeat s n'
  end.

Definition cons_head (c : char) (ls : list jsstring) : list jsstring :=
  match ls with
  | [] => [[c]]
  | l :: ls' => (c :: l) :: ls'
  end.

(** [s.split(/\r?\n/)]: the separator is a line feed, together with the
    carriage return right before it when there is one. *)
Fixpoint split_lines (s : jsstring) : list jsstring :=
  match s with
  | [] => [[]]
  | c :: rest =>
      if c =? LF then [] :: split_lines rest
      else
        match rest with
        | d :: rest' =>
            if (c =? CR) && (d =? LF) then [] :: split_lines rest'
            else cons_head c (split_lines rest)
        | [] => [[c]]
        end
  end.

End JsString.

Import JsString.

(** ** Protocol types *)

Record Position := { line : nat; character : nat }.

Record Range := { start : Position; end_ : Position }.

Record TextEdit := { range : Range; newText : jsstring }.

(** [FormattingOptions] of the protocol: [tabSize] is an unsigned
    integer, [insertSpaces] a boolean. *)
Record FormattingOptions := { tabSize : nat; insertSpaces : bool }.

(** The [TextDocument] interface, with the methods the server calls:
    [getText()] is [getText None], [getText(range)] is
    [getText (Some range)]. *)
Record TextDocument := {
  uri : string;
  getText : option Range -> jsstring;
  positionAt : nat -> Position
}.

(** ** Settings; every member is optional, [None] is [undefined] *)

Record FormatSettings := {
  enable : option bool;
  wrapLineLength : option Z;
  preserveNewLines : option bool;
  maxPreserveNewLines : option (option Z);
  indentInnerXml : option bool;
  wrapAttributes : option string;
  wrapAttributesIndentSize : option (option Z);
  unformattedContentDelimiter : option string
}.

Record XmlSettings := {
  format : option FormatSettings;
  suggest_enabled : option bool;
  validate_enabled : option bool;
  autoClosingTags : option bool;
  hover_documentation : option bool
}.

Record Settings := { xml : option XmlSettings }.

(** [{}] *)
Definition emptyFormatSettings : FormatSettings :=
  {| enable := None; wrapLineLength := None; preserveNewLines := None;
     maxPreserveNewLines := None; indentInnerXml := None;
     wrapAttributes := None; wrapAttributesIndentSize := None;
     unformattedContentDelimiter := None |}.

Definition emptySettings : Settings := {| xml := None |}.

(** [settings.xml?.format] *)
Definition xml_format (settings : Settings) : option FormatSettings :=
  match xml settings with
  | None => None
  | Some x => format x
  end.

(** Settings in which only the [xml.format] section is present. *)
Definition settingsOfFormat (f : FormatSettings) : Settings :=
  {| xml := Some {| format := Some f; suggest_enabled := None;
                    validate_enabled := None; autoClosingTags := None;
                    hover_documentation := None |} |}.

(** ** The formatter *)

Local Open Scope Z_scope.

(** The variables of the loop of [formatXml]. *)
Record LoopState := {
  formatted : jsstring;
  depth : Z;
  preserveWhitespace : bool
}.

Definition initialState : LoopState :=
  {| formatted := []; depth := 0; preserveWhitespace := false |}.

(** [options.tabSize || 2] *)
Definition indentSize (options : FormattingOptions) : nat :=
  match tabSize options with
  | O => 2%nat
  | n => n
  end.

(** [useSpaces ? ' '.repeat(indentSize) : '\t'], where [useSpaces] is
    [options.insertSpaces !== false]. *)
Definition indentChar (options : FormattingOptions) : jsstring :=
  if insertSpaces options then repeat [SPACE] (indentSize options)
  else [TAB].

(** [xmlSettings.preserveNewLines !== false], where [xmlSettings] is
    [settings.xml?.format || {}]. *)
Definition keepsNewLines (settings : Settings) : bool :=
  match preserveNewLines
          (match xml_format settings with
           | Some f => f
           | None => emptyFormatSettings
           end) with
  | Some false => false
  | _ => true
  end.

(** [indentChar.repeat(depth)]; the count is never negative, see
    [run_depth_nonneg]. *)
Definition indent (ic : jsstring) (d : Z) : jsstring :=
  repeat ic (Z.to_nat d).

(** [formatted += piece], with the new values of the other variables. *)
Definition emit (st : LoopState) (piece : jsstring) (d : Z) (pw : bool)
  : LoopState :=
  {| formatted := formatted st ++ piece; depth := d;
     preserveWhitespace := pw |}.

(** One iteration of the loop, on the element [raw] of [lines]. *)
Definition step (ic : jsstring) (keepNL : bool) (st : LoopState)
  (raw : jsstring) : LoopState :=
  let line := trim raw in
  let d := depth st in
  let pw := preserveWhitespace st in
  match line with
  | [] =>
      if keepNL then emit st [LF] d pw else st
  | _ :: _ =>
      if startsWith (u "<?") line || startsWith (u "<!--") line then
        emit st (line ++ [LF]) d pw
      else if includes (u "<![CDATA[") line then
        emit st (indent ic d ++ line ++ [LF]) d
             (negb (includes (u "]]>") line))
      else if pw then
        emit st (line ++ [LF]) d (negb (includes (u "]]>") line))
      else if includes (u "/>") line then
        emit st (indent ic d ++ line ++ [LF]) d pw
      else if startsWith (u "</") line then
        let d' := Z.max 0 (d - 1) in
        emit st (indent ic d' ++ line ++ [LF]) d' pw
      else if startsWith (u "<") line && negb (startsWith (u "<!") line) then
        emit st (indent ic d ++ line ++ [LF])
             (if negb (endsWith (u "/>") line) then d + 1 else d) pw
      else if negb (startsWith (u "<") line) then
        emit st (indent ic d ++ line ++ [LF]) d pw
      else
        emit st (indent ic d ++ line ++ [LF]) d pw
  end.

(** The loop over [lines], from the state [st]. *)
Definition run (ic : jsstring) (keepNL : bool) (lines : list jsstring)
  (st : LoopState) : LoopState :=
  fold_left (step ic keepNL) lines st.

Definition formatXml (content : jsstring) (options : FormattingOptions)
  (settings : Settings) : jsstring :=
  let lines := split_lines content in
  trimEnd (formatted (run (indentChar options) (keepsNewLines settings)
                          lines initialState)).

(** The loop variables after the first [k] iterations. *)
Definition stateAfter (content : jsstring) (options : FormattingOptions)
  (settings : Settings) (k : nat) : LoopState :=
  run (indentChar options) (keepsNewLines settings)
      (firstn k (split_lines content)) initialState.

Definition formatXmlDocument (document : TextDocument)
  (options : FormattingOptions) (settings : Settings) : list TextEdit :=
  let text := getText document None in
  let formatted := formatXml text options settings in
  if JsString.eqb formatted text then []
  else [ {| range := {| start := positionAt document 0;
                        end_ := positionAt document (length text) |};
            newText := formatted |} ].

Definition formatXmlDocumentRange (document : TextDocument) (range : Range)
  (options : FormattingOptions) (settings : Settings) : list TextEdit :=
  let text := getText document (Some range) in
  let formatted := formatXml text options settings in
  if JsString.eqb formatted text then []
  else [ {| range := range; newText := formatted |} ].

(** ** The request handlers registered by [startServer] *)

Record DocumentFormattingParams := {
  textDocument : string;
  options : FormattingOptions
}.

Record DocumentRangeFormattingParams := {
  range_textDocument : string;
  range_range : Range;
  range_options : FormattingOptions
}.

(** [getDocumentSettings]: [hasConfigurationCapability] is the constant
    [false], so the global settings are the resolved ones. *)
Definition getDocumentSettings (globalSettings : Settings)
  (resource : string) : Settings :=
  globalSettings.

(** [settings.xml?.format?.enable === false] *)
Definition formatDisabled (settings : Settings) : bool :=
  match xml_format settings with
  | Some f => match enable f with Some false => true | _ => false end
  | None => false
  end.

(** The handler of [connection.onDocumentFormatting]; [documents] is
    [documents.get]. *)
Definition onDocumentFormatting (documents : string -> option TextDocument)
  (globalSettings : Settings) (params : DocumentFormattingParams)
  : list TextEdit :=
  match documents (textDocument params) with
  | None => []
  | Some document =>
      let settings := getDocumentSettings globalSettings (textDocument params) in
      if formatDisabled settings then []
      else formatXmlDocument document (options params) settings
  end.

(** The handler of [connection.onDocumentRangeFormatting]. *)
Definition onDocumentRangeFormatting
  (documents : string -> option TextDocument) (globalSettings : Settings)
  (params : DocumentRangeFormattingParams) : list TextEdit :=
  match documents (range_textDocument params) with
  | None => []
  | Some document =>
      let settings :=
        getDocumentSettings globalSettings (range_textDocument params) in
      if formatDisabled settings then []
      else formatXmlDocumentRange document (range_range params)
             (range_options params) settings
  end.

(** ** Line-level view of the loop, used to reason about it *)

(** What one iteration does with [raw] when the variables are [d] and
    [pw]: the line appended to the output ([None] when nothing is
    appended), and the new values of the variables. *)
Definition renderLine (ic : jsstring) (keepNL : bool) (d : Z) (pw : bool)
  (raw : jsstring) : option jsstring * Z * bool :=
  let st := step ic keepNL
              {| formatted := []; depth := d; preserveWhitespace := pw |} raw in
  (match rev (formatted st) with
   | [] => None
   | _ :: r => Some (rev r)
   end, depth st, preserveWhitespace st).

(** The lines appended by the loop over [lines], from [d] and [pw]. *)
Fixpoint outLines (ic : jsstring) (keepNL : bool) (lines : list jsstring)
  (d : Z) (pw : bool) : list jsstring :=
  match lines with
  | [] => []
  | raw :: rest =>
      let '(o, d', pw') := renderLine ic keepNL d pw raw in
      match o with
      | Some l => l :: outLines ic keepNL rest d' pw'
      | None => outLines ic keepNL rest d' pw'
      end
  end.

(** The lines the loop appends for [content]. *)
Definition linesOf (content : jsstring) (options : FormattingOptions)
  (settings : Settings) : list jsstring :=
  outLines (indentChar options) (keepsNewLines settings)
           (split_lines content) 0 false.

(** Every line followed by a line feed. *)
Definition unlines (ls : list jsstring) : jsstring :=
  concat (map (fun l => l ++ [LF]) ls).

(** The lines separated by line feeds. *)
Fixpoint joinLines (ls : list jsstring) : jsstring :=
  match ls with
  | [] => []
  | l :: ls' =>
      match ls' with
      | [] => l
      | _ :: _ => l ++ LF :: joinLines ls'
      end
  end.

(** The lines without the empty lines at the end. *)
Fixpoint dropTrailingBlank (ls : list jsstring) : list jsstring :=
  match ls with
  | [] => []
  | l :: ls' =>
      match dropTrailingBlank ls' with
      | [] => match l with [] => [] | _ :: _ => [l] end
      | r => l :: r
      end
  end.

Definition nonBlank (l : jsstring) : bool :=
  match trim l with [] => false | _ :: _ => true end.

(** The trimmed contents of the non-blank lines of a text, in order. *)
Definition contentLines (text : jsstring) : list jsstring :=
  filter nonBlank (map trim (split_lines text)).

(** An indent unit: spaces only, or tabs only. *)
Definition indentUnit (ic : jsstring) : Prop :=
  Forall (fun c => c = SPACE \/ c = TAB) ic.

Definition blank (l : jsstring) : Prop := l = [].

(** A line as the loop appends it: no line feed inside, no white space
    at its end. *)
Definition tidy (l : jsstring) : Prop := ~ In LF l /\ trimEnd l = l.

(** A minimal in-memory document with single-line coordinates. *)
Definition plainDocument (name : string) (text : jsstring) : TextDocument :=
  {| uri := name;
     getText := fun r =>
       match r with
       | None => text
       | Some r =>
           firstn (character (end_ r) - character (start r))
                  (skipn (character (start r)) text)
       end;
     positionAt := fun offset =>
       {| line := 0; character := Nat.min offset (length text) |} |}.

(** ** Sample inputs *)

(** The text made of the given lines. *)
Definition textOf (ls : list string) : jsstring := joinLines (map u ls).

Definition twoSpaces : FormattingOptions :=
  {| tabSize := 2; insertSpaces := true |}.

(** [f] with [maxPreserveNewLines] set to [m]. *)
Definition withMaxPreserveNewLines (m : option (option Z))
  (f : FormatSettings) : FormatSettings :=
  {| enable := enable f; wrapLineLength := wrapLineLength f;
     preserveNewLines := preserveNewLines f;
     maxPreserveNewLines := m; indentInnerXml := indentInnerXml f;
     wrapAttributes := wrapAttributes f;
     wrapAttributesIndentSize := wrapAttributesIndentSize f;
     unformattedContentDelimiter := unformattedContentDelimiter f |}.

(** [preserveNewLines: true] *)
Definition preserving : FormatSettings :=
  {| enable := None; wrapLineLength := None; preserveNewLines := Some true;
     maxPreserveNewLines := None; indentInnerXml := None;
     wrapAttributes := None; wrapAttributesIndentSize := None;
     unformattedContentDelimiter := None |}.

(** [preserveNewLines: true, maxPreserveNewLines: 1] *)
Definition keepOneBlank : Settings :=
  settingsOfFormat (withMaxPreserveNewLines (Some (Some 1)) preserving).

(** [enable: false] *)
Definition disabledSettings : Settings :=
  settingsOfFormat
    {| enable := Some false; wrapLineLength := None; preserveNewLines := None;
       maxPreserveNewLines := None; indentInnerXml := None;
       wrapAttributes := None; wrapAttributesIndentSize := None;
       unformattedContentDelimiter := None |}.

Definition unformattedText : jsstring := textOf ["<a>"; "<b/>"; "</a>"].

Definition unformattedDocument : TextDocument :=
  plainDocument "file:///a.xml" unformattedText.

(** A document in which [<a>] is nested in [<r>], and the range of the
    three lines of [<a>]. *)
Definition nestedDocument : TextDocument :=
  plainDocument "file:///n.xml"
    (textOf ["<r>"; "<a>"; "<b/>"; "</a>"; "</r>"]).

Definition innerRange : Range :=
  {| start := {| line := 0; character := 4 |};
     end_ := {| line := 0; character := 17 |} |}.

(** ** The branches of the loop, by kind of line *)

(** The branch of the loop that handles a trimmed line outside verbatim
    mode, in the order of the tests of [formatXml]. *)
Inductive LineKind :=
| Blank
| Declaration
| CdataOpen (closed : bool)
| SelfClosingTag
| ClosingTag
| OpeningTag
| TextContent
| Fallback.

Definition classify (line : jsstring) : LineKind :=
  match line with
  | [] => Blank
  | _ :: _ =>
      if startsWith (u "<?") line || startsWith (u "<!--") line then
        Declaration
      else if includes (u "<![CDATA[") line then
        CdataOpen (includes (u "]]>") line)
      else if includes (u "/>") line then SelfClosingTag
      else if startsWith (u "</") line then ClosingTag
      else if startsWith (u "<") line && negb (startsWith (u "<!") line) then
        OpeningTag
      else if negb (startsWith (u "<") line) then TextContent
      else Fallback
  end.

(** The kinds of line that change neither the depth nor the mode. *)
Definition neutral (k : LineKind) : bool :=
  match k with
  | CdataOpen false | ClosingTag | OpeningTag => false
  | _ => true
  end.

(** A line that ends verbatim mode: it has the CDATA end marker and is
    not taken by the declaration and comment branch. *)
Definition endsVerbatim (line : jsstring) : bool :=
  includes (u "]]>") line
  && negb (startsWith (u "<?") line || startsWith (u "<!--") line).

(** Lines in which every opening-tag line has its closing-tag line and
    every CDATA section that is opened is closed. *)
Inductive Balanced : list jsstring -> Prop :=
| Balanced_nil : Balanced []
| Balanced_flat (raw : jsstring) (rest : list jsstring) :
    neutral (classify (trim raw)) = true ->
    Balanced rest -> Balanced (raw :: rest)
| Balanced_element (opening : jsstring) (body : list jsstring)
    (closing : jsstring) (rest : list jsstring) :
    classify (trim opening) = OpeningTag ->
    Balanced body ->
    classify (trim closing) = ClosingTag ->
    Balanced rest -> Balanced (opening :: body ++ closing :: rest)
| Balanced_cdata (opening : jsstring) (body : list jsstring)
    (closing : jsstring) (rest : list jsstring) :
    classify (trim opening) = CdataOpen false ->
    Forall (fun raw => includes (u "]]>") (trim raw) = false) body ->
    endsVerbatim (trim closing) = true ->
    Balanced rest -> Balanced (opening :: body ++ closing :: rest).

(** ** The server: settings as received, and the handlers of [startServer] *)

Module Server.

(** A value as it arrives in a notification.  Numbers are only tested
    for truthiness by the server; integers stand for them. *)
#[warnings="-register-all"]
Inductive JsValue :=
| JsUndefined
| JsNull
| JsBool (b : bool)
| JsNumber (n : Z)
| JsString (s : string)
| JsArray (items : list JsValue)
| JsObject (members : list (string * JsValue)).

(** [!!v] *)
Definition truthy (v : JsValue) : bool :=
  match v with
  | JsUndefined | JsNull => false
  | JsBool b => b
  | JsNumber n => negb (n =? 0)
  | JsString s => negb (String.eqb s "")
  | JsArray _ | JsObject _ => true
  end.

(** The own property [k] of an object given by its members. *)
Fixpoint lookup (k : string) (members : list (string * JsValue)) : JsValue :=
  match members with
  | [] => JsUndefined
  | (k', v) :: rest => if String.eqb k k' then v else lookup k rest
  end.

(** [v.k], for the property names the server reads; [None] is the
    [TypeError] of a property access on [undefined] or [null]. *)
Definition getMember (v : JsValue) (k : string) : option JsValue :=
  match v with
  | JsUndefined | JsNull => None
  | JsObject members => Some (lookup k members)
  | _ => Some JsUndefined
  end.

(** [v?.k] *)
Definition getOptional (v : JsValue) (k : string) : JsValue :=
  match getMember v k with
  | Some x => x
  | None => JsUndefined
  end.

(** [v === false] *)
Definition isFalse (v : JsValue) : bool :=
  match v with
  | JsBool false => true
  | _ => false
  end.

(** [a || b] *)
Definition orElse (a b : JsValue) : JsValue := if truthy a then a else b.

Definition asBool (v : JsValue) : option bool :=
  match v with JsBool b => Some b | _ => None end.

Definition asNumber (v : JsValue) : option Z :=
  match v with JsNumber n => Some n | _ => None end.

Definition asNullableNumber (v : JsValue) : option (option Z) :=
  match v with
  | JsNull => Some None
  | JsNumber n => Some (Some n)
  | _ => None
  end.

Definition asString (v : JsValue) : option string :=
  match v with JsString s => Some s | _ => None end.

(** A received value seen through the interface [Settings]. *)
Definition viewFormat (f : JsValue) : option FormatSettings :=
  match f with
  | JsObject _ =>
      Some {| enable := asBool (getOptional f "enable");
              wrapLineLength := asNumber (getOptional f "wrapLineLength");
              preserveNewLines := asBool (getOptional f "preserveNewLines");
              maxPreserveNewLines :=
                asNullableNumber (getOptional f "maxPreserveNewLines");
              indentInnerXml := asBool (getOptional f "indentInnerXml");
              wrapAttributes := asString (getOptional f "wrapAttributes");
              wrapAttributesIndentSize :=
                asNullableNumber (getOptional f "wrapAttributesIndentSize");
              unformattedContentDelimiter :=
                asString (getOptional f "unformattedContentDelimiter") |}
  | _ => None
  end.

Definition viewXml (x : JsValue) : option XmlSettings :=
  match x with
  | JsUndefined | JsNull => None
  | _ =>
      Some {| format := viewFormat (getOptional x "format");
              suggest_enabled :=
                asBool (getOptional (getOptional x "suggest") "enabled");
              validate_enabled :=
                asBool (getOptional (getOptional x "validate") "enabled");
              autoClosingTags := asBool (getOptional x "autoClosingTags");
              hover_documentation :=
                asBool (getOptional (getOptional x "hover") "documentation") |}
  end.

Definition viewSettings (settings : JsValue) : Settings :=
  {| xml := viewXml (getOptional settings "xml") |}.

(** [settings.xml?.format?.enable === false], on the received value;
    [None] when [settings.xml] throws. *)
Definition formatEnableIsFalse (settings : JsValue) : option bool :=
  match getMember settings "xml" with
  | None => None
  | Some x => Some (isFalse (getOptional (getOptional x "format") "enable"))
  end.

(** [settings.xml?.validate?.enabled === false] *)
Definition validateEnabledIsFalse (settings : JsValue) : option bool :=
  match getMember settings "xml" with
  | None => None
  | Some x => Some (isFalse (getOptional (getOptional x "validate") "enabled"))
  end.

(** [(settings.xml?.format || {}).preserveNewLines !== false] *)
Definition preserveNewLinesIsNotFalse (settings : JsValue) : option bool :=
  match getMember settings "xml" with
  | None => None
  | Some x =>
      Some (negb (isFalse (getOptional
                             (orElse (getOptional x "format") (JsObject []))
                             "preserveNewLines")))
  end.

(** The variables of the module that the handlers share. *)
Record ServerState := {
  workspaceFolders : list JsValue;
  globalSettings : JsValue;
  documentSettings : list (string * JsValue)
}.

Definition initialServer : ServerState :=
  {| workspaceFolders := []; globalSettings := JsObject [];
     documentSettings := [] |}.

Definition hasConfigurationCapability : bool := false.
Definition hasWorkspaceFolderCapability : bool := false.

Record PublishDiagnosticsParams := {
  diagnostics_uri : string;
  diagnostics : list JsValue
}.

Fixpoint deleteKey (k : string) (members : list (string * JsValue))
  : list (string * JsValue) :=
  match members with
  | [] => []
  | (k', v) :: rest =>
      if String.eqb k k' then deleteKey k rest else (k', v) :: deleteKey k rest
  end.

Section Handlers.

(** [connection.workspace.getConfiguration({scopeUri, section: 'xml'})] *)
Variable getConfiguration : string -> JsValue.

(** [getDocumentSettings]: the resolved settings and the state with the
    cache as the call leaves it. *)
Definition getDocumentSettings (st : ServerState) (resource : string)
  : JsValue * ServerState :=
  if negb hasConfigurationCapability then (globalSettings st, st)
  else
    let result := lookup resource (documentSettings st) in
    if negb (truthy result) then
      let result := getConfiguration resource in
      (result,
       {| workspaceFolders := workspaceFolders st;
          globalSettings := globalSettings st;
          documentSettings :=
            (resource, result) :: deleteKey resource (documentSettings st) |})
    else (result, st).

(** [validateTextDocument]: the notifications sent and the state after
    the call; a [TypeError] rejects the promise and sends nothing. *)
Definition validateTextDocument (st : ServerState) (textDocument : TextDocument)
  : list PublishDiagnosticsParams * ServerState :=
  let '(settings, st') := getDocumentSettings st (uri textDocument) in
  match validateEnabledIsFalse settings with
  | None => ([], st')
  | Some true => ([], st')
  | Some false =>
      ([ {| diagnostics_uri := uri textDocument; diagnostics := [] |} ], st')
  end.

(** [documents.all().forEach(validateTextDocument)] *)
Fixpoint validateAll (st : ServerState) (all : list TextDocument)
  : list PublishDiagnosticsParams * ServerState :=
  match all with
  | [] => ([], st)
  | d :: rest =>
      let '(sent, st1) := validateTextDocument st d in
      let '(sent', st2) := validateAll st1 rest in
      (sent ++ sent', st2)
  end.

(** The events the server handles; a configuration change and a content
    change come with the open documents of the document manager. *)
Inductive Event :=
| Initialize (folders : option (list JsValue))
| Initialized
| DidChangeConfiguration (change : JsValue) (all : list TextDocument)
| DidClose (closed : string)
| DidChangeContent (changed : TextDocument).

(** [connection.onInitialize]: the variables after the call (the result
    is the constant record of capabilities). *)
Definition onInitialize (st : ServerState) (folders : option (list JsValue))
  : ServerState :=
  match folders with
  | Some fs =>
      {| workspaceFolders := fs; globalSettings := globalSettings st;
         documentSettings := documentSettings st |}
  | None => st
  end.

(** [connection.onDidChangeConfiguration]; [None] when
    [change.settings.xml] throws, which leaves the variables as they
    were. *)
Definition onDidChangeConfiguration (st : ServerState) (change : JsValue)
  (all : list TextDocument)
  : option (list PublishDiagnosticsParams * ServerState) :=
  if hasConfigurationCapability then
    Some (validateAll {| workspaceFolders := workspaceFolders st;
                         globalSettings := globalSettings st;
                         documentSettings := [] |} all)
  else
    match getMember change "settings" with
    | None => None
    | Some settings =>
        match getMember settings "xml" with
        | None => None
        | Some x =>
            Some (validateAll
                    {| workspaceFolders := workspaceFolders st;
                       globalSettings := orElse x (JsObject []);
                       documentSettings := documentSettings st |} all)
        end
    end.

(** [documents.onDidClose] *)
Definition onDidClose (st : ServerState) (closed : string) : ServerState :=
  {| workspaceFolders := workspaceFolders st;
     globalSettings := globalSettings st;
     documentSettings := deleteKey closed (documentSettings st) |}.

(** One event: the notifications sent and the next state. *)
Definition handle (st : ServerState) (e : Event)
  : list PublishDiagnosticsParams * ServerState :=
  match e with
  | Initialize folders => ([], onInitialize st folders)
  | Initialized => ([], st)
  | DidChangeConfiguration change all =>
      match onDidChangeConfiguration st change all with
      | Some r => r
      | None => ([], st)
      end
  | DidClose closed => ([], onDidClose st closed)
  | DidChangeContent changed => validateTextDocument st changed
  end.

Fixpoint handleAll (st : ServerState) (events : list Event)
  : list PublishDiagnosticsParams * ServerState :=
  match events with
  | [] => ([], st)
  | e :: rest =>
      let '(sent, st1) := handle st e in
      let '(sent', st2) := handleAll st1 rest in
      (sent ++ sent', st2)
  end.

(** The handler of [connection.onDocumentFormatting] on the variables of
    the server; [None] when reading the settings throws. *)
Definition onDocumentFormatting (st : ServerState)
  (documents : string -> option TextDocument)
  (params : DocumentFormattingParams) : option (list TextEdit) :=
  match documents (textDocument params) with
  | None => Some []
  | Some document =>
      let '(settings, _) := getDocumentSettings st (textDocument params) in
      match formatEnableIsFalse settings with
      | None => None
      | Some true => Some []
      | Some false =>
          Some (formatXmlDocument document (options params)
                  (viewSettings settings))
      end
  end.

(** The handler of [connection.onDocumentRangeFormatting]. *)
Definition onDocumentRangeFormatting (st : ServerState)
  (documents : string -> option TextDocument)
  (params : DocumentRangeFormattingParams) : option (list TextEdit) :=
  match documents (range_textDocument params) with
  | None => Some []
  | Some document =>
      let '(settings, _) :=
        getDocumentSettings st (range_textDocument params) in
      match formatEnableIsFalse settings with
      | None => None
      | Some true => Some []
      | Some false =>
          Some (formatXmlDocumentRange document (range_range params)
                  (range_options params) (viewSettings settings))
      end
  end.

End Handlers.

(** The configuration change the client sends for the section [xml]:
    [{ settings: { xml: section } }]. *)
Definition configurationChange (section : JsValue) : JsValue :=
  JsObject [("settings", JsObject [("xml", section)])].

(** [{ format: { enable: false, preserveNewLines: false } }] *)
Definition disablingSection : JsValue :=
  JsObject [("format", JsObject [("enable", JsBool false);
                                 ("preserveNewLines", JsBool false)]);
            ("validate", JsObject [("enabled", JsBool false)])].

(** What every handler keeps: the global settings are an object, a
    truthy primitive at least, never [undefined] or [null], and the cache
    of document settings is empty. *)
Definition steady (st : ServerState) : Prop :=
  truthy (globalSettings st) = true /\ documentSettings st = [].

End Server.

(** ** The client: the completion middleware of [startClient] *)

Module Client.

(** [CompletionItem.range]: absent, a [Range], or a pair of an inserting
    and a replacing range. *)
Inductive ItemRange :=
| NoRange
| PlainRange (r : Range)
| InsertReplace (inserting replacing : Range).

Record CompletionItem := { label : string; itemRange : ItemRange }.

(** The result of the next provider: an array of items, a completion
    list, or [null] / [undefined]. *)
Inductive Proposals :=
| ItemArray (items : list CompletionItem)
| ItemList (isIncomplete : bool) (items : list CompletionItem).

Definition itemsOf (r : Proposals) : list CompletionItem :=
  match r with
  | ItemArray items => items
  | ItemList _ items => items
  end.

Section Middleware.

(** The methods of the editor's [Position] and the constructor of its
    [Range], which the middleware calls. *)
Variable isAfter : Position -> Position -> bool.
Variable isBeforeOrEqual : Position -> Position -> bool.
Variable newRange : Position -> Position -> Range.

(** [updateRanges], as the item it leaves. *)
Definition updateRanges (position : Position) (item : CompletionItem)
  : CompletionItem :=
  match itemRange item with
  | PlainRange range =>
      if isAfter (end_ range) position
         && isBeforeOrEqual (start range) position
      then {| label := label item;
              itemRange :=
                InsertReplace (newRange (start range) position) range |}
      else item
  | _ => item
  end.

(** [updateProposals] *)
Definition updateProposals (position : Position) (r : option Proposals)
  : option Proposals :=
  match r with
  | Some (ItemArray items) =>
      Some (ItemArray (map (updateRanges position) items))
  | Some (ItemList isIncomplete items) =>
      Some (ItemList isIncomplete (map (updateRanges position) items))
  | None => None
  end.

(** [provideCompletionItem], on the value the next provider gives, at
    once or through a promise. *)
Definition provideCompletionItem (position : Position)
  (next : option Proposals) : option Proposals :=
  updateProposals position next.

End Middleware.

End Client.

(** A text up to what leading indentation, blank lines and white space
    at the end of the text can change: every line without its leading
    white space, the lines left empty dropped, the text right-trimmed. *)
Definition upToIndentBlankAndFinalTrim (text : jsstring) : jsstring :=
  trimEnd
    (joinLines
       (filter (fun l => match l with [] => false | _ :: _ => true end)
               (map trimStart (split_lines text)))).

(** ** Facts about JavaScript strings *)

Module JsStringFacts.

Local Open Scope N_scope.

Lemma eqb_eq (a b : jsstring) : JsString.eqb a b = true <-> a = b.
Proof.
  revert b; induction a as [|x a IH]; intros [|y b]; simpl;
    try (split; congruence).
  rewrite andb_true_iff, N.eqb_eq, IH. split.
  - intros [-> ->]; reflexivity.
  - intros H; injection H; auto.
Qed.

Lemma eqb_refl (a : jsstring) : JsString.eqb a a = true.
Proof. apply eqb_eq; reflexivity. Qed.

Lemma eqb_neq (a b : jsstring) : JsString.eqb a b = false <-> a <> b.
Proof.
  rewrite <- eqb_eq. destruct (JsString.eqb a b); split; congruence.
Qed.

Lemma trimStart_app (a b : jsstring) :
  trimStart (a ++ b) =
  match trimStart a with [] => trimStart b | _ :: _ => trimStart a ++ b end.
Proof.
  induction a as [|c a IH]; simpl; [reflexivity|].
  destruct (isWhiteSpace c); [exact IH | reflexivity].
Qed.

Lemma trimStart_idem (s : jsstring) : trimStart (trimStart s) = trimStart s.
Proof.
  induction s as [|c s IH]; simpl; [reflexivity|].
  destruct (isWhiteSpace c) eqn:E; [exact IH | simpl; rewrite E; reflexivity].
Qed.

Lemma trimStart_ws (p s : jsstring) :
  Forall (fun c => isWhiteSpace c = true) p -> trimStart (p ++ s) = trimStart s.
Proof.
  induction 1 as [|c p Hc _ IH]; simpl; [reflexivity|].
  rewrite Hc; exact IH.
Qed.

Lemma trimEnd_nil : trimEnd [] = [].
Proof. reflexivity. Qed.

Lemma trimEnd_app (a b : jsstring) :
  trimEnd (a ++ b) =
  match trimEnd b with [] => trimEnd a | _ :: _ => a ++ trimEnd b end.
Proof.
  unfold trimEnd. rewrite rev_app_distr, trimStart_app.
  destruct (trimStart (rev b)) as [|x r] eqn:E; [reflexivity|].
  rewrite rev_app_distr, rev_involutive.
  destruct (rev (x :: r)) eqn:E'; [|reflexivity].
  apply (f_equal (@length char)) in E'. rewrite length_rev in E'.
  discriminate.
Qed.

Lemma trimEnd_cons (c : char) (s : jsstring) :
  trimEnd (c :: s) =
  match trimEnd s with
  | [] => if isWhiteSpace c then [] else [c]
  | _ :: _ => c :: trimEnd s
  end.
Proof.
  change (c :: s) with ([c] ++ s). rewrite trimEnd_app.
  destruct (trimEnd s); [|reflexivity].
  unfold trimEnd; simpl. destruct (isWhiteSpace c); reflexivity.
Qed.

Lemma trimEnd_idem (s : jsstring) : trimEnd (trimEnd s) = trimEnd s.
Proof.
  unfold trimEnd. rewrite rev_involutive, trimStart_idem. reflexivity.
Qed.

Lemma trimEnd_ws (s p : jsstring) :
  Forall (fun c => isWhiteSpace c = true) p -> trimEnd (s ++ p) = trimEnd s.
Proof.
  intros Hp. rewrite trimEnd_app.
  replace (trimEnd p) with (@nil char); [reflexivity|].
  unfold trimEnd. rewrite <- (app_nil_r (rev p)), trimStart_ws; [reflexivity|].
  apply Forall_rev; exact Hp.
Qed.

(** A string that [trimEnd] leaves alone and that is not empty, with its
    first character split off. *)
Lemma trimEnd_fix_cons (c : char) (s : jsstring) :
  trimEnd (c :: s) = c :: s ->
  trimEnd s = s /\ (s = [] -> isWhiteSpace c = false).
Proof.
  rewrite trimEnd_cons. destruct (trimEnd s) as [|x r] eqn:E.
  - destruct (isWhiteSpace c); [discriminate|].
    intros H; injection H as <-. auto.
  - intros H; injection H as <-. split; [reflexivity | discriminate].
Qed.

Lemma trimStart_trimEnd (s : jsstring) :
  trimStart s = s -> trimStart (trimEnd s) = trimEnd s.
Proof.
  destruct s as [|c s]; [reflexivity|]. simpl.
  destruct (isWhiteSpace c) eqn:Ec.
  - intros H. exfalso.
    assert (L : forall t, (length (trimStart t) <= length t)%nat).
    { induction t as [|x t IH]; simpl; [lia|].
      destruct (isWhiteSpace x); simpl; lia. }
    specialize (L s). rewrite H in L. simpl in L. lia.
  - intros _. rewrite trimEnd_cons.
    destruct (trimEnd s); [rewrite Ec|]; simpl; rewrite Ec; reflexivity.
Qed.

Lemma trim_trimStart_fix (s : jsstring) : trimStart (trim s) = trim s.
Proof.
  unfold trim. apply trimStart_trimEnd, trimStart_idem.
Qed.

Lemma trim_trimEnd_fix (s : jsstring) : trimEnd (trim s) = trim s.
Proof. unfold trim. apply trimEnd_idem. Qed.

Lemma trim_idem (s : jsstring) : trim (trim s) = trim s.
Proof.
  unfold trim at 1. rewrite trim_trimStart_fix. apply trim_trimEnd_fix.
Qed.

Lemma trim_nil : trim [] = [].
Proof. reflexivity. Qed.

Lemma trim_ws_app (p s : jsstring) :
  Forall (fun c => isWhiteSpace c = true) p -> trim (p ++ s) = trim s.
Proof. intros H. unfold trim. rewrite trimStart_ws by exact H. reflexivity. Qed.

Lemma LF_ws : isWhiteSpace LF = true.
Proof. reflexivity. Qed.

Lemma CR_ws : isWhiteSpace CR = true.
Proof. reflexivity. Qed.

Lemma trimStart_In (c : char) (s : jsstring) : In c (trimStart s) -> In c s.
Proof.
  induction s as [|x s IH]; simpl; [tauto|].
  destruct (isWhiteSpace x); simpl; tauto.
Qed.

Lemma trim_In (c : char) (s : jsstring) : In c (trim s) -> In c s.
Proof.
  unfold trim, trimEnd. intros H.
  apply in_rev, trimStart_In, in_rev, trimStart_In in H. exact H.
Qed.

(** *** Splitting into lines *)

Lemma split_lines_LF (rest : jsstring) :
  split_lines (LF :: rest) = [] :: split_lines rest.
Proof. reflexivity. Qed.

Lemma split_lines_last (c : char) :
  c <> LF -> split_lines [c] = [[c]].
Proof.
  intros H. simpl. apply N.eqb_neq in H. rewrite H. reflexivity.
Qed.

Lemma split_lines_other (c d : char) (rest : jsstring) :
  c <> LF -> (c = CR -> d <> LF) ->
  split_lines (c :: d :: rest) = cons_head c (split_lines (d :: rest)).
Proof.
  intros H1 H2.
  change (split_lines (c :: d :: rest)) with
    (if c =? LF then [] :: split_lines (d :: rest)
     else if (c =? CR) && (d =? LF) then [] :: split_lines rest
          else cons_head c (split_lines (d :: rest))).
  apply N.eqb_neq in H1. rewrite H1.
  destruct (c =? CR) eqn:E1; [|reflexivity].
  apply N.eqb_eq in E1. apply H2 in E1. apply N.eqb_neq in E1.
  rewrite E1. reflexivity.
Qed.

Lemma split_lines_CRLF (rest : jsstring) :
  split_lines (CR :: LF :: rest) = [] :: split_lines rest.
Proof. reflexivity. Qed.

Lemma cons_head_Forall (P : jsstring -> Prop) (c : char) (ls : list jsstring) :
  (forall l, P l -> P (c :: l)) -> P [c] -> Forall P ls ->
  Forall P (cons_head c ls).
Proof.
  intros H1 H2 [|l ls' Hl Hls]; simpl; constructor; auto.
Qed.

Lemma split_lines_cases (c : char) (rest : jsstring) :
  (c = LF /\ split_lines (c :: rest) = [] :: split_lines rest)
  \/ (c = CR /\ exists rest', rest = LF :: rest'
                 /\ split_lines (c :: rest) = [] :: split_lines rest')
  \/ (c <> LF /\ rest = [] /\ split_lines (c :: rest) = [[c]])
  \/ (c <> LF /\ rest <> []
      /\ split_lines (c :: rest) = cons_head c (split_lines rest)).
Proof.
  destruct (N.eq_dec c LF) as [->|Hc]; [left; split; reflexivity|].
  right. destruct rest as [|d rest'].
  - right; left. repeat split; auto. apply split_lines_last; exact Hc.
  - destruct (N.eq_dec c CR) as [->|Hc'].
    + destruct (N.eq_dec d LF) as [->|Hd].
      * left. split; [reflexivity|]. exists rest'. split; reflexivity.
      * right; right. repeat split; [exact Hc | discriminate |].
        apply split_lines_other; auto.
    + right; right. repeat split; [exact Hc | discriminate |].
      apply split_lines_other; [exact Hc | intros; contradiction].
Qed.

(** No element of [content.split(/\r?\n/)] contains a line feed. *)
Lemma split_lines_noLF (s : jsstring) :
  Forall (fun l => ~ In LF l) (split_lines s).
Proof.
  assert (G : forall n s, (length s <= n)%nat ->
                          Forall (fun l => ~ In LF l) (split_lines s)).
  { induction n as [|n IH]; intros [|c rest] Hn; simpl in Hn;
      try lia; try (constructor; [tauto | constructor]).
    destruct (split_lines_cases c rest)
      as [[_ ->]|[[_ (rest' & -> & ->)]|[(Hc & _ & ->)|(Hc & _ & ->)]]].
    - constructor; [tauto | apply IH; lia].
    - constructor; [tauto | apply IH; simpl in Hn; lia].
    - constructor; [|constructor]. simpl. intros [E|[]]. congruence.
    - apply cons_head_Forall.
      + intros l Hl [E|E]; [congruence | tauto].
      + intros [E|[]]. congruence.
      + apply IH; lia. }
  apply (G (length s)). lia.
Qed.

Lemma split_lines_nonempty (s : jsstring) : split_lines s <> [].
Proof.
  destruct s as [|c rest]; [discriminate|].
  destruct (split_lines_cases c rest)
    as [[_ ->]|[[_ (rest' & -> & ->)]|[(Hc & _ & ->)|(Hc & _ & ->)]]];
    try discriminate.
  destruct (split_lines rest); discriminate.
Qed.

(** A line without line feed that does not end in white space is a
    single element of the split. *)
Lemma split_lines_single (l : jsstring) :
  ~ In LF l -> trimEnd l = l -> split_lines l = [l].
Proof.
  induction l as [|c l IH]; intros Hn Ht; [reflexivity|].
  apply trimEnd_fix_cons in Ht. destruct Ht as [Ht Hc].
  assert (c <> LF) by (intros ->; apply Hn; left; reflexivity).
  destruct l as [|d l'].
  - apply split_lines_last; assumption.
  - rewrite split_lines_other; auto.
    + rewrite IH; [reflexivity | | exact Ht].
      intros Hin; apply Hn; right; exact Hin.
    + intros _ ->. apply Hn. right; left; reflexivity.
Qed.

Lemma split_lines_app_LF (l rest : jsstring) :
  ~ In LF l -> trimEnd l = l ->
  split_lines (l ++ LF :: rest) = l :: split_lines rest.
Proof.
  induction l as [|c l IH]; intros Hn Ht; [reflexivity|].
  apply trimEnd_fix_cons in Ht. destruct Ht as [Ht Hc].
  assert (c <> LF) by (intros ->; apply Hn; left; reflexivity).
  assert (Hn' : ~ In LF l) by (intros Hin; apply Hn; right; exact Hin).
  destruct l as [|d l'].
  - simpl app. rewrite split_lines_other; [reflexivity | assumption |].
    intros ->. specialize (Hc eq_refl). discriminate.
  - simpl app. rewrite split_lines_other; auto.
    + change (d :: l' ++ LF :: rest) with ((d :: l') ++ LF :: rest).
      rewrite IH; auto.
    + intros _ ->. apply Hn. right; left; reflexivity.
Qed.

End JsStringFacts.

(** ** Facts about texts as lists of lines *)

Module LinesFacts.

Import JsStringFacts.

Lemma unlines_cons (l : jsstring) (ls : list jsstring) :
  unlines (l :: ls) = l ++ LF :: unlines ls.
Proof. unfold unlines. simpl. rewrite <- app_assoc. reflexivity. Qed.

Lemma unlines_app (a b : list jsstring) :
  unlines (a ++ b) = unlines a ++ unlines b.
Proof. unfold unlines. rewrite map_app, concat_app. reflexivity. Qed.

Lemma dropTrailingBlank_cons (l : jsstring) (ls : list jsstring) :
  dropTrailingBlank (l :: ls) =
  match dropTrailingBlank ls with
  | [] => match l with [] => [] | _ :: _ => [l] end
  | _ :: _ => l :: dropTrailingBlank ls
  end.
Proof. simpl. destruct (dropTrailingBlank ls); reflexivity. Qed.

Lemma dropTrailingBlank_blank (bl : list jsstring) :
  Forall blank bl -> dropTrailingBlank bl = [].
Proof.
  induction 1 as [|l bl Hl _ IH]; [reflexivity|].
  rewrite dropTrailingBlank_cons, IH, Hl. reflexivity.
Qed.

Lemma dropTrailingBlank_app_blank (ls bl : list jsstring) :
  Forall blank bl -> dropTrailingBlank (ls ++ bl) = dropTrailingBlank ls.
Proof.
  intros Hb. induction ls as [|l ls IH].
  - simpl app. rewrite dropTrailingBlank_blank by exact Hb. reflexivity.
  - simpl app. rewrite !dropTrailingBlank_cons, IH. reflexivity.
Qed.

Lemma dropTrailingBlank_split (ls : list jsstring) :
  exists bl, Forall blank bl /\ ls = dropTrailingBlank ls ++ bl.
Proof.
  induction ls as [|l ls (bl & Hb & E)].
  - exists []. split; [constructor | reflexivity].
  - rewrite dropTrailingBlank_cons.
    destruct (dropTrailingBlank ls) as [|x r].
    + destruct l as [|c l].
      * exists ([] :: bl). simpl in E. subst ls.
        split; [constructor; [reflexivity | exact Hb] | reflexivity].
      * exists bl. simpl in E. subst ls. split; [exact Hb | reflexivity].
    + exists bl. split; [exact Hb|]. rewrite E at 1. reflexivity.
Qed.

Lemma dropTrailingBlank_Forall (P : jsstring -> Prop) (ls : list jsstring) :
  Forall P ls -> Forall P (dropTrailingBlank ls).
Proof.
  intros H. destruct (dropTrailingBlank_split ls) as (bl & _ & E).
  rewrite E in H. apply Forall_app in H. tauto.
Qed.

Lemma joinLines_cons2 (l x : jsstring) (r : list jsstring) :
  joinLines (l :: x :: r) = l ++ LF :: joinLines (x :: r).
Proof. reflexivity. Qed.

Lemma joinLines_dropTrailingBlank_nonempty (ls : list jsstring) :
  dropTrailingBlank ls <> [] -> joinLines (dropTrailingBlank ls) <> [].
Proof.
  induction ls as [|l ls IH]; [tauto|].
  rewrite dropTrailingBlank_cons.
  destruct (dropTrailingBlank ls) as [|x r].
  - destruct l; [tauto | discriminate].
  - intros _. rewrite joinLines_cons2. destruct l; discriminate.
Qed.

(** [trimEnd] of the accumulated output removes the line feed of the
    last non-empty line and the empty lines after it. *)
Lemma trimEnd_unlines (ls : list jsstring) :
  Forall (fun l => trimEnd l = l) ls ->
  trimEnd (unlines ls) = joinLines (dropTrailingBlank ls).
Proof.
  induction 1 as [|l ls Hl _ IH]; [reflexivity|].
  rewrite unlines_cons, trimEnd_app, trimEnd_cons, IH.
  rewrite dropTrailingBlank_cons.
  pose proof (joinLines_dropTrailingBlank_nonempty ls) as Hne.
  destruct (dropTrailingBlank ls) as [|x r].
  - simpl joinLines at 1. rewrite LF_ws, Hl. destruct l; reflexivity.
  - destruct (joinLines (x :: r)) as [|c t] eqn:E.
    + exfalso. apply Hne; [discriminate | reflexivity].
    + rewrite joinLines_cons2, E. reflexivity.
Qed.

Lemma split_joinLines (ls : list jsstring) :
  ls <> [] -> Forall tidy ls -> split_lines (joinLines ls) = ls.
Proof.
  intros Hne H. induction H as [|l ls [Hl1 Hl2] Hls IH]; [tauto|].
  destruct ls as [|x r].
  - simpl. apply split_lines_single; assumption.
  - rewrite joinLines_cons2, split_lines_app_LF by assumption.
    rewrite IH; [reflexivity | discriminate].
Qed.

Lemma dropTrailingBlank_map_trim (ls : list jsstring) :
  Forall (fun l => trim l = [] -> l = []) ls ->
  map trim (dropTrailingBlank ls) = dropTrailingBlank (map trim ls).
Proof.
  induction 1 as [|l ls Hl _ IH]; [reflexivity|].
  cbn [map]. rewrite !dropTrailingBlank_cons, <- IH.
  destruct (dropTrailingBlank ls) as [|x r]; [|reflexivity].
  destruct l as [|c l]; [reflexivity|]. cbn [map].
  destruct (trim (c :: l)) eqn:E; [|reflexivity].
  specialize (Hl eq_refl). discriminate.
Qed.

End LinesFacts.

(** ** The loop, line by line *)

(** Case analysis on the tests of an iteration, outermost first. *)
Ltac branches :=
  repeat match goal with
         | |- context [if ?b then _ else _] => destruct b
         end.

Section Loop.

Import JsStringFacts LinesFacts.

Variable ic : jsstring.
Variable keepNL : bool.
Hypothesis ic_unit : indentUnit ic.

Lemma repeat_ws (n : nat) : Forall (fun c => isWhiteSpace c = true) (repeat ic n).
Proof.
  induction n as [|n IH]; simpl; [constructor|].
  apply Forall_app. split; [|exact IH].
  eapply Forall_impl; [|exact ic_unit]. intros c [->| ->]; reflexivity.
Qed.

Lemma indent_ws (d : Z) : Forall (fun c => isWhiteSpace c = true) (indent ic d).
Proof. apply repeat_ws. Qed.

Lemma indent_noLF (d : Z) : ~ In LF (indent ic d).
Proof.
  intros H. pose proof (indent_ws d) as W.
  unfold indent in *. induction (Z.to_nat d) as [|n IH]; simpl in *; [tauto|].
  apply in_app_or in H. destruct H as [H|H].
  - unfold indentUnit in ic_unit. rewrite Forall_forall in ic_unit.
    destruct (ic_unit _ H); discriminate.
  - apply Forall_app in W. tauto.
Qed.

(** A trimmed, non-empty line behind an indent is tidy and trims back
    to the line. *)
Lemma indented_tidy (d : Z) (raw : jsstring) :
  trim raw <> [] ->
  trim (indent ic d ++ trim raw) = trim raw
  /\ trimEnd (indent ic d ++ trim raw) = indent ic d ++ trim raw
  /\ (~ In LF raw -> ~ In LF (indent ic d ++ trim raw)).
Proof.
  intros Hne. split; [|split].
  - rewrite trim_ws_app by apply indent_ws. apply trim_idem.
  - rewrite trimEnd_app, trim_trimEnd_fix.
    destruct (trim raw); [tauto | reflexivity].
  - intros Hn Hin. apply in_app_or in Hin. destruct Hin as [Hin|Hin].
    + exact (indent_noLF _ Hin).
    + apply Hn, trim_In, Hin.
Qed.

Lemma bare_tidy (raw : jsstring) :
  trim (trim raw) = trim raw
  /\ trimEnd (trim raw) = trim raw
  /\ (~ In LF raw -> ~ In LF (trim raw)).
Proof.
  split; [apply trim_idem | split; [apply trim_trimEnd_fix|]].
  intros Hn Hin. apply Hn, trim_In, Hin.
Qed.

(** An iteration only looks at the trimmed line. *)
Lemma step_trim (st : LoopState) (a b : jsstring) :
  trim a = trim b -> step ic keepNL st a = step ic keepNL st b.
Proof. intros E. unfold step. rewrite E. reflexivity. Qed.

(** What an iteration does: it appends one line and its line feed, or
    nothing for a blank line that is not kept; the appended line trims
    to the same content as the input line. *)
Lemma step_shape (d : Z) (pw : bool) (raw : jsstring) :
  exists (o : option jsstring) (d' : Z) (pw' : bool),
    (forall f,
        step ic keepNL
          {| formatted := f; depth := d; preserveWhitespace := pw |} raw
        = {| formatted :=
               f ++ match o with Some l => l ++ [LF] | None => [] end;
             depth := d'; preserveWhitespace := pw' |})
    /\ match o with
       | None => trim raw = [] /\ keepNL = false /\ d' = d /\ pw' = pw
       | Some l =>
           trim l = trim raw /\ trimEnd l = l
           /\ (~ In LF raw -> ~ In LF l)
           /\ exists n, l = repeat ic n ++ trim raw
       end.
Proof.
  unfold step. cbn [depth preserveWhitespace].
  destruct (trim raw) as [|c t] eqn:E.
  - destruct keepNL.
    + exists (Some []), d, pw. split; [reflexivity|].
      split; [reflexivity | split; [reflexivity | split; [intros _ []|]]].
      exists 0%nat. reflexivity.
    + exists None, d, pw. split; [|tauto].
      intros f. rewrite app_nil_r. reflexivity.
  - assert (Hne : trim raw <> []) by (rewrite E; discriminate).
    rewrite <- E.
    branches;
      first
        [ exists (Some (trim raw)); do 2 eexists;
          split; [intros f; reflexivity
                 | repeat split; try apply bare_tidy;
                   exists 0%nat; reflexivity]
        | eexists (Some (indent ic _ ++ trim raw)); do 2 eexists;
          split; [intros f; unfold emit; cbn [formatted];
                  rewrite <- app_assoc; reflexivity
                 | repeat split; try (apply indented_tidy; exact Hne);
                   eexists; reflexivity] ].
Qed.

Lemma outLines_cons (raw : jsstring) (rest : list jsstring) (d : Z)
  (pw : bool) :
  outLines ic keepNL (raw :: rest) d pw
  = match renderLine ic keepNL d pw raw with
    | (Some l, d', pw') => l :: outLines ic keepNL rest d' pw'
    | (None, d', pw') => outLines ic keepNL rest d' pw'
    end.
Proof.
  cbn [outLines]. destruct (renderLine ic keepNL d pw raw) as [[[l|] d'] pw'];
    reflexivity.
Qed.

Lemma renderLine_step (d : Z) (pw : bool) (raw : jsstring) :
  forall f,
    step ic keepNL
      {| formatted := f; depth := d; preserveWhitespace := pw |} raw
    = let '(o, d', pw') := renderLine ic keepNL d pw raw in
      {| formatted := f ++ match o with Some l => l ++ [LF] | None => [] end;
         depth := d'; preserveWhitespace := pw' |}.
Proof.
  destruct (step_shape d pw raw) as (o & d' & pw' & Hs & _).
  unfold renderLine. rewrite (Hs []). cbn [formatted depth preserveWhitespace].
  rewrite app_nil_l. intros f. rewrite Hs.
  destruct o as [l|]; [|reflexivity].
  rewrite rev_app_distr. simpl rev at 1. cbn [app].
  rewrite rev_involutive. reflexivity.
Qed.

Lemma renderLine_props (d : Z) (pw : bool) (raw : jsstring) :
  match renderLine ic keepNL d pw raw with
  | (None, d', pw') => trim raw = [] /\ keepNL = false /\ d' = d /\ pw' = pw
  | (Some l, _, _) =>
      trim l = trim raw /\ trimEnd l = l /\ (~ In LF raw -> ~ In LF l)
      /\ exists n, l = repeat ic n ++ trim raw
  end.
Proof.
  destruct (step_shape d pw raw) as (o & d' & pw' & Hs & Hp).
  pose proof (renderLine_step d pw raw []) as E. rewrite Hs in E.
  destruct (renderLine ic keepNL d pw raw) as [[o2 d2] pw2].
  injection E as E1 -> ->.
  destruct o as [l|], o2 as [l2|]; try exact Hp.
  - apply app_inv_tail in E1. subst l2. exact Hp.
  - destruct l; discriminate.
  - destruct l2; discriminate.
Qed.

Lemma renderLine_trim (d : Z) (pw : bool) (a b : jsstring) :
  trim a = trim b ->
  renderLine ic keepNL d pw a = renderLine ic keepNL d pw b.
Proof. intros E. unfold renderLine. rewrite (step_trim _ a b E). reflexivity. Qed.

Lemma renderLine_blank (d : Z) (pw : bool) :
  renderLine ic keepNL d pw [] = (if keepNL then Some [] else None, d, pw).
Proof. unfold renderLine, step. destruct keepNL; reflexivity. Qed.

(** The output of the loop is the output of its lines, one after the
    other. *)
Lemma run_formatted (lines : list jsstring) (st : LoopState) :
  formatted (run ic keepNL lines st)
  = formatted st
    ++ unlines (outLines ic keepNL lines (depth st) (preserveWhitespace st)).
Proof.
  revert st. induction lines as [|raw rest IH]; intros st.
  - simpl. rewrite app_nil_r. reflexivity.
  - unfold run in *. simpl fold_left. rewrite IH.
    destruct st as [f d pw]. rewrite renderLine_step.
    rewrite outLines_cons. cbn [depth preserveWhitespace formatted].
    destruct (renderLine ic keepNL d pw raw) as [[[l|] d'] pw'];
      cbn [depth preserveWhitespace formatted].
    + rewrite unlines_cons, <- !app_assoc. reflexivity.
    + rewrite app_nil_r. reflexivity.
Qed.

Lemma outLines_app (a b : list jsstring) (d : Z) (pw : bool) :
  exists d2 pw2,
    outLines ic keepNL (a ++ b) d pw
    = outLines ic keepNL a d pw ++ outLines ic keepNL b d2 pw2.
Proof.
  revert d pw. induction a as [|raw a IH]; intros d pw.
  - exists d, pw. reflexivity.
  - cbn [app]. rewrite !outLines_cons.
    destruct (renderLine ic keepNL d pw raw) as [[o d'] pw'].
    destruct (IH d' pw') as (d2 & pw2 & E). exists d2, pw2.
    rewrite E. destruct o; reflexivity.
Qed.

Lemma outLines_blank (bl : list jsstring) (d : Z) (pw : bool) :
  Forall blank bl -> Forall blank (outLines ic keepNL bl d pw).
Proof.
  induction 1 as [|l bl Hl _ IH]; [constructor|].
  rewrite Hl, outLines_cons, renderLine_blank.
  destruct keepNL; [constructor; [reflexivity|]|]; exact IH.
Qed.

Lemma outLines_trimEnd (lines : list jsstring) (d : Z) (pw : bool) :
  Forall (fun l => trimEnd l = l) (outLines ic keepNL lines d pw).
Proof.
  revert d pw. induction lines as [|raw rest IH]; intros d pw; [constructor|].
  rewrite outLines_cons. pose proof (renderLine_props d pw raw) as Hp.
  destruct (renderLine ic keepNL d pw raw) as [[[l|] d'] pw']; [|apply IH].
  constructor; [tauto | apply IH].
Qed.

Lemma outLines_tidy (lines : list jsstring) (d : Z) (pw : bool) :
  Forall (fun l => ~ In LF l) lines ->
  Forall tidy (outLines ic keepNL lines d pw).
Proof.
  intros H. revert d pw.
  induction H as [|raw rest Hr _ IH]; intros d pw; [constructor|].
  rewrite outLines_cons. pose proof (renderLine_props d pw raw) as Hp.
  destruct (renderLine ic keepNL d pw raw) as [[[l|] d'] pw']; [|apply IH].
  constructor; [split; tauto | apply IH].
Qed.

(** Running the loop on its own output lines gives them back. *)
Lemma outLines_idem (lines : list jsstring) (d : Z) (pw : bool) :
  outLines ic keepNL (outLines ic keepNL lines d pw) d pw
  = outLines ic keepNL lines d pw.
Proof.
  revert d pw. induction lines as [|raw rest IH]; intros d pw; [reflexivity|].
  rewrite outLines_cons. pose proof (renderLine_props d pw raw) as Hp.
  destruct (renderLine ic keepNL d pw raw) as [[[l|] d'] pw'] eqn:E.
  - destruct Hp as (Ht & _).
    rewrite outLines_cons, (renderLine_trim d pw l raw Ht), E, IH.
    reflexivity.
  - destruct Hp as (_ & _ & -> & ->). apply IH.
Qed.

(** The loop keeps the trimmed content of every non-blank line, in
    order. *)
Lemma outLines_content (lines : list jsstring) (d : Z) (pw : bool) :
  filter nonBlank (map trim (outLines ic keepNL lines d pw))
  = filter nonBlank (map trim lines).
Proof.
  revert d pw. induction lines as [|raw rest IH]; intros d pw; [reflexivity|].
  rewrite outLines_cons. pose proof (renderLine_props d pw raw) as Hp.
  destruct (renderLine ic keepNL d pw raw) as [[[l|] d'] pw'].
  - destruct Hp as (Ht & _). cbn [map filter]. rewrite Ht, IH. reflexivity.
  - destruct Hp as (Ht & _). cbn [map filter]. rewrite IH.
    unfold nonBlank at 2. rewrite trim_idem, Ht. reflexivity.
Qed.

(** Every line of the output is a number of indent units followed by
    its own trimmed content. *)
Lemma outLines_indented (lines : list jsstring) (d : Z) (pw : bool) :
  Forall (fun l => exists n, l = repeat ic n ++ trim l)
         (outLines ic keepNL lines d pw).
Proof.
  revert d pw. induction lines as [|raw rest IH]; intros d pw; [constructor|].
  rewrite outLines_cons. pose proof (renderLine_props d pw raw) as Hp.
  destruct (renderLine ic keepNL d pw raw) as [[[l|] d'] pw']; [|apply IH].
  constructor; [|apply IH].
  destruct Hp as (Ht & _ & _ & n & E). exists n. rewrite Ht. exact E.
Qed.

(** An output line without content is an empty line. *)
Lemma outLines_blank_only (lines : list jsstring) (d : Z) (pw : bool) :
  Forall (fun l => trim l = [] -> l = []) (outLines ic keepNL lines d pw).
Proof.
  pose proof (outLines_indented lines d pw) as I.
  pose proof (outLines_trimEnd lines d pw) as T.
  rewrite Forall_forall in *. intros l Hl E.
  destruct (I l Hl) as (n & En). rewrite E, app_nil_r in En.
  rewrite <- (T l Hl), En.
  rewrite <- (app_nil_l (repeat ic n)). apply trimEnd_ws, repeat_ws.
Qed.

(** When blank lines are kept, every input line has its output line. *)
Lemma outLines_keep (lines : list jsstring) (d : Z) (pw : bool) :
  keepNL = true ->
  map trim (outLines ic keepNL lines d pw) = map trim lines.
Proof.
  intros K. revert d pw.
  induction lines as [|raw rest IH]; intros d pw; [reflexivity|].
  rewrite outLines_cons. pose proof (renderLine_props d pw raw) as Hp.
  destruct (renderLine ic keepNL d pw raw) as [[[l|] d'] pw'].
  - destruct Hp as (Ht & _). cbn [map]. rewrite Ht, IH. reflexivity.
  - destruct Hp as (_ & K' & _). congruence.
Qed.

End Loop.

(** ** The formatter on whole texts *)

Module FormatFacts.

Import JsStringFacts LinesFacts.

Lemma indentChar_unit (options : FormattingOptions) :
  indentUnit (indentChar options).
Proof.
  unfold indentUnit, indentChar. destruct (insertSpaces options).
  - induction (indentSize options) as [|n IH]; simpl; constructor; auto.
  - constructor; [right; reflexivity | constructor].
Qed.

(** The result is the output lines without the empty lines at the end,
    separated by line feeds. *)
Lemma formatXml_lines (content : jsstring) (options : FormattingOptions)
  (settings : Settings) :
  formatXml content options settings
  = joinLines (dropTrailingBlank (linesOf content options settings)).
Proof.
  unfold formatXml, linesOf. rewrite run_formatted by apply indentChar_unit.
  cbn [initialState formatted depth preserveWhitespace app].
  apply trimEnd_unlines, outLines_trimEnd, indentChar_unit.
Qed.

Lemma linesOf_tidy (content : jsstring) (options : FormattingOptions)
  (settings : Settings) :
  Forall tidy (dropTrailingBlank (linesOf content options settings)).
Proof.
  apply dropTrailingBlank_Forall, outLines_tidy.
  - apply indentChar_unit.
  - apply split_lines_noLF.
Qed.

(** Splitting the result gives those lines back; an empty result is one
    empty line. *)
Lemma split_formatXml (content : jsstring) (options : FormattingOptions)
  (settings : Settings) :
  split_lines (formatXml content options settings)
  = match dropTrailingBlank (linesOf content options settings) with
    | [] => [[]]
    | l :: ls => l :: ls
    end.
Proof.
  rewrite formatXml_lines. pose proof (linesOf_tidy content options settings) as T.
  destruct (dropTrailingBlank (linesOf content options settings)) as [|l ls].
  - reflexivity.
  - apply split_joinLines; [discriminate | exact T].
Qed.

Lemma dropTrailingBlank_outLines (content : jsstring)
  (options : FormattingOptions) (settings : Settings) :
  dropTrailingBlank
    (outLines (indentChar options) (keepsNewLines settings)
       (dropTrailingBlank (linesOf content options settings)) 0 false)
  = dropTrailingBlank (linesOf content options settings).
Proof.
  pose proof (indentChar_unit options) as U.
  destruct (dropTrailingBlank_split (linesOf content options settings))
    as (bl & Hb & E).
  pose proof (outLines_idem (indentChar options) (keepsNewLines settings) U
                (split_lines content) 0 false) as I.
  fold (linesOf content options settings) in I.
  rewrite E in I at 1.
  destruct (outLines_app (indentChar options) (keepsNewLines settings)
              (dropTrailingBlank (linesOf content options settings)) bl 0 false)
    as (d2 & pw2 & A).
  rewrite A in I.
  rewrite <- I at 2.
  rewrite dropTrailingBlank_app_blank; [reflexivity|].
  apply outLines_blank, Hb.
Qed.

Lemma formatXml_idem (content : jsstring) (options : FormattingOptions)
  (settings : Settings) :
  formatXml (formatXml content options settings) options settings
  = formatXml content options settings.
Proof.
  rewrite (formatXml_lines (formatXml content options settings)).
  unfold linesOf at 1. rewrite split_formatXml.
  pose proof (dropTrailingBlank_outLines content options settings) as D.
  rewrite (formatXml_lines content).
  destruct (dropTrailingBlank (linesOf content options settings)) as [|l ls].
  - rewrite outLines_cons, renderLine_blank.
    destruct (keepsNewLines settings); reflexivity.
  - rewrite D. reflexivity.
Qed.

Lemma contentLines_blank (bl : list jsstring) :
  Forall blank bl -> filter nonBlank (map trim bl) = [].
Proof.
  induction 1 as [|l bl Hl _ IH]; [reflexivity|].
  rewrite Hl. simpl. exact IH.
Qed.

Lemma formatXml_content (content : jsstring) (options : FormattingOptions)
  (settings : Settings) :
  contentLines (formatXml content options settings) = contentLines content.
Proof.
  unfold contentLines. rewrite split_formatXml.
  rewrite <- (outLines_content (indentChar options) (keepsNewLines settings)
                (indentChar_unit options) (split_lines content) 0 false).
  fold (linesOf content options settings).
  destruct (dropTrailingBlank_split (linesOf content options settings))
    as (bl & Hb & E).
  transitivity
    (filter nonBlank
       (map trim (dropTrailingBlank (linesOf content options settings)))).
  - destruct (dropTrailingBlank (linesOf content options settings));
      reflexivity.
  - set (D := dropTrailingBlank (linesOf content options settings)) in *.
    clearbody D. rewrite E.
    rewrite map_app, filter_app, (contentLines_blank bl Hb).
    rewrite app_nil_r. reflexivity.
Qed.

Lemma formatXml_indented (content : jsstring) (options : FormattingOptions)
  (settings : Settings) :
  Forall (fun l => exists n, l = repeat (indentChar options) n ++ trim l)
         (split_lines (formatXml content options settings)).
Proof.
  rewrite split_formatXml.
  pose proof (dropTrailingBlank_Forall _ _
                (outLines_indented (indentChar options)
                   (keepsNewLines settings) (indentChar_unit options)
                   (split_lines content) 0 false)) as H.
  fold (linesOf content options settings) in H.
  destruct (dropTrailingBlank (linesOf content options settings)).
  - constructor; [exists 0%nat; reflexivity | constructor].
  - exact H.
Qed.

(** When blank lines are kept, the trimmed lines of the result are the
    trimmed lines of the input, without the blank lines at the end. *)
Lemma formatXml_keeps_lines (content : jsstring) (options : FormattingOptions)
  (settings : Settings) :
  keepsNewLines settings = true ->
  map trim (split_lines (formatXml content options settings))
  = match dropTrailingBlank (map trim (split_lines content)) with
    | [] => [[]]
    | l :: ls => l :: ls
    end.
Proof.
  intros K. rewrite split_formatXml.
  rewrite <- (outLines_keep (indentChar options) (keepsNewLines settings)
                (indentChar_unit options) (split_lines content) 0 false K).
  fold (linesOf content options settings).
  rewrite <- dropTrailingBlank_map_trim
    by apply outLines_blank_only, indentChar_unit.
  destruct (dropTrailingBlank (linesOf content options settings));
    reflexivity.
Qed.

End FormatFacts.

(** ** The depth of the walk *)

Module DepthFacts.

Lemma step_depth_nonneg (ic : jsstring) (keepNL : bool) (st : LoopState)
  (raw : jsstring) :
  0 <= depth st -> 0 <= depth (step ic keepNL st raw).
Proof.
  intros H. unfold step. destruct (trim raw) as [|c t].
  - destruct keepNL; cbn; exact H.
  - branches; cbn [emit depth]; lia.
Qed.

(** A line that starts with the closing-tag marker is not a declaration
    or a comment, and is not empty. *)
Lemma closing_not_declaration (l : jsstring) :
  startsWith (u "</") l = true ->
  l <> [] /\ startsWith (u "<?") l || startsWith (u "<!--") l = false.
Proof.
  destruct l as [|a [|b l]].
  - discriminate.
  - change (startsWith (u "</") [a]) with ((60 =? a)%N && false).
    rewrite andb_false_r. discriminate.
  - change (startsWith (u "</") (a :: b :: l))
      with ((60 =? a)%N && ((47 =? b)%N && true)).
    intros H. apply andb_true_iff in H. destruct H as [Ha Hb].
    apply andb_true_iff in Hb. destruct Hb as [Hb _].
    apply N.eqb_eq in Ha, Hb. subst a b. split; [discriminate | reflexivity].
Qed.

(** The closing-tag branch: the depth goes down by one, not below 0. *)
Lemma step_closing (ic : jsstring) (keepNL : bool) (st : LoopState)
  (raw : jsstring) :
  startsWith (u "</") (trim raw) = true ->
  includes (u "<![CDATA[") (trim raw) = false ->
  preserveWhitespace st = false ->
  includes (u "/>") (trim raw) = false ->
  depth (step ic keepNL st raw) = Z.max 0 (depth st - 1).
Proof.
  intros H1 H2 H3 H4. destruct (closing_not_declaration _ H1) as [Hne Hd].
  unfold step. destruct (trim raw) as [|c t]; [tauto|].
  rewrite Hd, H2, H3, H4, H1. reflexivity.
Qed.

Lemma run_depth_nonneg (ic : jsstring) (keepNL : bool)
  (lines : list jsstring) (st : LoopState) :
  0 <= depth st -> 0 <= depth (run ic keepNL lines st).
Proof.
  revert st. induction lines as [|raw rest IH]; intros st H; [exact H|].
  apply IH, step_depth_nonneg, H.
Qed.

End DepthFacts.

(** ** Properties of the formatter *)

Import JsStringFacts LinesFacts FormatFacts DepthFacts.

(** C1, as the claim states it, fails: the single line [<a><b/></a>]
    is not turned into the three-line text. *)
Lemma scenarioA_single_line_not_split :
  formatXml (u "<a><b/></a>") twoSpaces emptySettings
  <> textOf ["<a>"; "  <b/>"; "</a>"].
Proof. vm_compute. discriminate. Qed.

(** C1 (amended): with [tabSize = 2] and [insertSpaces = true], the
    single-line input [<a><b/></a>] contains [/>], is rendered as one
    line at depth 0 and comes back unchanged, so whole-document
    formatting returns no edit; the three-line output [<a>], [  <b/>],
    [</a>] is what the formatter produces when the three tags are on
    three lines of the input. *)
Theorem scenarioA_line_oriented :
  formatXml (u "<a><b/></a>") twoSpaces emptySettings = u "<a><b/></a>"
  /\ formatXmlDocument (plainDocument "file:///a.xml" (u "<a><b/></a>"))
       twoSpaces emptySettings = []
  /\ formatXml (textOf ["<a>"; "<b/>"; "</a>"]) twoSpaces emptySettings
     = textOf ["<a>"; "  <b/>"; "</a>"].
Proof. repeat split; vm_compute; reflexivity. Qed.

(** C2: what the code does on a CDATA section of several lines: the
    interior line [  keep  ] comes out as [keep], its leading and
    trailing white space is lost. *)
Theorem cdata_interior_line_trimmed :
  formatXml (textOf ["<a>"; "<![CDATA["; "  keep  "; "]]>"; "</a>"])
    twoSpaces emptySettings
  = textOf ["<a>"; "  <![CDATA["; "keep"; "]]>"; "</a>"].
Proof. vm_compute. reflexivity. Qed.

(** C3, as the claim states it, fails: with [preserveNewLines = true] and
    [maxPreserveNewLines = 1], the three blank lines between the two
    siblings are all in the output, not one. *)
Lemma scenarioB_three_blank_lines_kept :
  formatXml (textOf ["<r>"; "<a/>"; ""; ""; ""; "<b/>"; "</r>"])
    twoSpaces keepOneBlank
  = textOf ["<r>"; "  <a/>"; ""; ""; ""; "  <b/>"; "</r>"]
  /\ formatXml (textOf ["<r>"; "<a/>"; ""; ""; ""; "<b/>"; "</r>"])
       twoSpaces keepOneBlank
     <> textOf ["<r>"; "  <a/>"; ""; "  <b/>"; "</r>"].
Proof. split; vm_compute; [reflexivity | discriminate]. Qed.

(** C3 (amended): [maxPreserveNewLines] is not read by the formatter.
    When [preserveNewLines] is not [false], whatever the value [m] of
    [maxPreserveNewLines], the trimmed lines of the output are the trimmed
    lines of the input without the blank lines at the end of the text:
    every other blank line is kept, and no run is truncated. *)
Theorem maxPreserveNewLines_not_applied (content : jsstring)
  (options : FormattingOptions) (f : FormatSettings)
  (m : option (option Z)) :
  preserveNewLines f <> Some false ->
  map trim (split_lines
              (formatXml content options
                 (settingsOfFormat (withMaxPreserveNewLines m f))))
  = match dropTrailingBlank (map trim (split_lines content)) with
    | [] => [[]]
    | l :: ls => l :: ls
    end.
Proof.
  intros H. apply formatXml_keeps_lines.
  unfold keepsNewLines. cbn.
  destruct (preserveNewLines f) as [[|]|]; congruence.
Qed.

Lemma maxPreserveNewLines_not_applied_witness :
  preserveNewLines preserving <> Some false
  /\ map trim
       (split_lines
          (formatXml (textOf ["<r>"; "<a/>"; ""; ""; ""; "<b/>"; "</r>"])
             twoSpaces keepOneBlank))
     = map u ["<r>"; "<a/>"; ""; ""; ""; "<b/>"; "</r>"].
Proof.
  split; [discriminate|].
  apply (maxPreserveNewLines_not_applied
           (textOf ["<r>"; "<a/>"; ""; ""; ""; "<b/>"; "</r>"])
           twoSpaces preserving (Some (Some 1))).
  discriminate.
Defined.

(** C4: formatting is idempotent, [formatXml (formatXml t o s) o s =
    formatXml t o s] for every text, options and settings; so
    whole-document formatting of a document whose text is a formatting
    result returns the empty edit list. *)
Theorem formatXml_idempotent (t : jsstring) (o : FormattingOptions)
  (s : Settings) :
  formatXml (formatXml t o s) o s = formatXml t o s
  /\ forall document,
       getText document None = formatXml t o s ->
       formatXmlDocument document o s = [].
Proof.
  split; [apply formatXml_idem|].
  intros document E. unfold formatXmlDocument.
  rewrite E, formatXml_idem, eqb_refl. reflexivity.
Qed.

Lemma formatXml_idempotent_witness :
  getText (plainDocument "file:///a.xml"
             (formatXml unformattedText twoSpaces emptySettings)) None
  = formatXml unformattedText twoSpaces emptySettings
  /\ formatXmlDocument
       (plainDocument "file:///a.xml"
          (formatXml unformattedText twoSpaces emptySettings))
       twoSpaces emptySettings = [].
Proof.
  split; [reflexivity|].
  apply (proj2 (formatXml_idempotent unformattedText twoSpaces emptySettings)).
  reflexivity.
Defined.

(** C5: whole-document formatting returns the empty edit list exactly
    when the rendered result, right-trimmed, equals the text of the
    document; otherwise it returns exactly one edit, from offset 0 to
    the length of the text, whose new text is the rendered result. *)
Theorem formatXmlDocument_edits (document : TextDocument)
  (o : FormattingOptions) (s : Settings) :
  let text := getText document None in
  let rendered :=
    trimEnd (formatted (run (indentChar o) (keepsNewLines s)
                            (split_lines text) initialState)) in
  (formatXmlDocument document o s = [] <-> rendered = text)
  /\ (rendered <> text ->
      formatXmlDocument document o s
      = [ {| range := {| start := positionAt document 0;
                         end_ := positionAt document (length text) |};
             newText := rendered |} ]).
Proof.
  intros text rendered. unfold formatXmlDocument.
  fold text. change (formatXml text o s) with rendered.
  destruct (JsString.eqb rendered text) eqn:E.
  - apply eqb_eq in E. split; [tauto | contradiction].
  - apply eqb_neq in E. split; [|reflexivity].
    split; [discriminate | contradiction].
Qed.

Lemma formatXmlDocument_edits_witness :
  formatXml unformattedText twoSpaces emptySettings <> unformattedText
  /\ formatXmlDocument unformattedDocument twoSpaces emptySettings
     = [ {| range := {| start := {| line := 0; character := 0 |};
                        end_ := {| line := 0; character := 13 |} |};
            newText := textOf ["<a>"; "  <b/>"; "</a>"] |} ].
Proof.
  split; [vm_compute; discriminate|].
  apply (proj2 (formatXmlDocument_edits unformattedDocument twoSpaces
                  emptySettings)).
  vm_compute. discriminate.
Defined.

(** C6: when the resolved settings have [xml.format.enable = false],
    the document formatting handler and the range formatting handler
    both return the empty edit list, whatever the document, the range
    and the options. *)
Theorem format_disabled_no_edits
  (documents : string -> option TextDocument) (globalSettings : Settings)
  (params : DocumentFormattingParams)
  (rangeParams : DocumentRangeFormattingParams)
  (x : XmlSettings) (f : FormatSettings) :
  xml globalSettings = Some x -> format x = Some f ->
  enable f = Some false ->
  onDocumentFormatting documents globalSettings params = []
  /\ onDocumentRangeFormatting documents globalSettings rangeParams = [].
Proof.
  intros Hx Hf He.
  assert (D : forall r, formatDisabled (getDocumentSettings globalSettings r)
                        = true).
  { intros r. unfold formatDisabled, getDocumentSettings, xml_format.
    rewrite Hx, Hf, He. reflexivity. }
  unfold onDocumentFormatting, onDocumentRangeFormatting.
  split.
  - destruct (documents (textDocument params)); [rewrite D|]; reflexivity.
  - destruct (documents (range_textDocument rangeParams)); [rewrite D|];
      reflexivity.
Qed.

Lemma format_disabled_no_edits_witness :
  formatXmlDocument unformattedDocument twoSpaces disabledSettings <> []
  /\ onDocumentFormatting (fun _ => Some unformattedDocument) disabledSettings
       {| textDocument := "file:///a.xml"; options := twoSpaces |} = []
  /\ onDocumentRangeFormatting (fun _ => Some unformattedDocument)
       disabledSettings
       {| range_textDocument := "file:///a.xml";
          range_range := {| start := {| line := 0; character := 0 |};
                            end_ := {| line := 0; character := 13 |} |};
          range_options := twoSpaces |} = [].
Proof.
  split; [vm_compute; discriminate|].
  eapply format_disabled_no_edits; reflexivity.
Defined.

(** C7: at every step of the walk, for every input (extra closing
    tags included), the depth is not negative; an iteration started at a
    depth that is not negative ends at one; and a closing tag takes the
    depth to [max 0 (depth - 1)]: it goes down by one with a floor at 0. *)
Theorem depth_never_negative :
  (forall content o s k, 0 <= depth (stateAfter content o s k))
  /\ (forall ic keepNL st raw,
        0 <= depth st -> 0 <= depth (step ic keepNL st raw))
  /\ (forall ic keepNL st raw,
        startsWith (u "</") (trim raw) = true ->
        includes (u "<![CDATA[") (trim raw) = false ->
        preserveWhitespace st = false ->
        includes (u "/>") (trim raw) = false ->
        depth (step ic keepNL st raw) = Z.max 0 (depth st - 1)).
Proof.
  split; [|split].
  - intros content o s k. unfold stateAfter.
    apply run_depth_nonneg. cbn. lia.
  - apply step_depth_nonneg.
  - apply step_closing.
Qed.

Lemma depth_never_negative_witness :
  0 <= depth initialState
  /\ startsWith (u "</") (trim (u "</a>")) = true
  /\ includes (u "<![CDATA[") (trim (u "</a>")) = false
  /\ preserveWhitespace initialState = false
  /\ includes (u "/>") (trim (u "</a>")) = false
  /\ 0 <= depth (step (indentChar twoSpaces) true initialState (u "</a>"))
  /\ depth (step (indentChar twoSpaces) true initialState (u "</a>"))
     = Z.max 0 (0 - 1)
  /\ 0 <= depth (stateAfter (textOf ["</a>"; "</b>"; "<c>"]) twoSpaces
                  emptySettings 2).
Proof.
  split; [cbn; lia|]. do 4 (split; [reflexivity|]). split; [|split].
  - apply (proj1 (proj2 depth_never_negative)). cbn. lia.
  - apply (proj2 (proj2 depth_never_negative)
             (indentChar twoSpaces) true initialState (u "</a>"));
      reflexivity.
  - apply (proj1 depth_never_negative).
Defined.

(** C8: an iteration on a line whose trimmed content contains [/>]
    leaves the depth as it was. *)
Theorem self_closing_keeps_depth (ic : jsstring) (keepNL : bool)
  (st : LoopState) (raw : jsstring) :
  includes (u "/>") (trim raw) = true ->
  depth (step ic keepNL st raw) = depth st.
Proof.
  intros H. unfold step. destruct (trim raw) as [|c t]; [discriminate|].
  destruct (startsWith (u "<?") (c :: t) || startsWith (u "<!--") (c :: t));
    [reflexivity|].
  destruct (includes (u "<![CDATA[") (c :: t)); [reflexivity|].
  destruct (preserveWhitespace st); [reflexivity|].
  rewrite H. reflexivity.
Qed.

Lemma self_closing_keeps_depth_witness :
  includes (u "/>") (trim (u "  </a><b/>")) = true
  /\ depth (step (indentChar twoSpaces) true
              {| formatted := u "<a>"; depth := 3;
                 preserveWhitespace := false |}
              (u "  </a><b/>")) = 3.
Proof.
  split; [reflexivity|].
  apply (self_closing_keeps_depth (indentChar twoSpaces) true
           {| formatted := u "<a>"; depth := 3; preserveWhitespace := false |}
           (u "  </a><b/>")).
  reflexivity.
Defined.

(** C9: range formatting takes the text of the caller's range, runs
    [formatXml] on it alone, from the initial state at depth 0, and,
    when the result differs from that text, returns exactly one edit,
    whose range is the caller's range and whose new text is the one
    whole-document formatting gives on that text; what the document has
    outside the range plays no part. *)
Theorem range_formatting (document : TextDocument) (r : Range)
  (o : FormattingOptions) (s : Settings) :
  let text := getText document (Some r) in
  (formatXml text o s = text -> formatXmlDocumentRange document r o s = [])
  /\ (formatXml text o s <> text ->
      formatXmlDocumentRange document r o s
      = [ {| range := r; newText := formatXml text o s |} ])
  /\ (forall whole,
        getText whole None = text ->
        map newText (formatXmlDocumentRange document r o s)
        = map newText (formatXmlDocument whole o s))
  /\ (forall other,
        getText other (Some r) = text ->
        formatXmlDocumentRange other r o s
        = formatXmlDocumentRange document r o s)
  /\ formatXml text o s
     = trimEnd (formatted (run (indentChar o) (keepsNewLines s)
                               (split_lines text) initialState))
  /\ depth initialState = 0
  /\ preserveWhitespace initialState = false.
Proof.
  intros text. unfold formatXmlDocumentRange, formatXmlDocument. fold text.
  repeat split.
  - intros E. rewrite E, eqb_refl. reflexivity.
  - intros E. apply eqb_neq in E. rewrite E. reflexivity.
  - intros whole E. rewrite E.
    destruct (JsString.eqb (formatXml text o s) text); reflexivity.
  - intros other E. rewrite E. reflexivity.
Qed.

Lemma range_formatting_witness :
  getText nestedDocument (Some innerRange) = textOf ["<a>"; "<b/>"; "</a>"]
  /\ formatXml (getText nestedDocument (Some innerRange)) twoSpaces
       emptySettings
     <> getText nestedDocument (Some innerRange)
  /\ formatXmlDocumentRange nestedDocument innerRange twoSpaces emptySettings
     = [ {| range := innerRange;
            newText := textOf ["<a>"; "  <b/>"; "</a>"] |} ].
Proof.
  split; [reflexivity|]. split; [vm_compute; discriminate|].
  apply (proj1 (proj2 (range_formatting nestedDocument innerRange twoSpaces
                         emptySettings))).
  vm_compute. discriminate.
Defined.

(** C10, as the claim states it, fails in its last clause: on the two
    lines [<a/> ] and [<b/>] the result is [<a/>], [<b/>]; the white
    space at the end of the first line is gone, a difference that is
    neither leading indentation, nor a blank line, nor white space at
    the end of the text. *)
Lemma trailing_space_of_inner_line_removed :
  formatXml (u "<a/> " ++ [LF] ++ u "<b/>") twoSpaces emptySettings
  = textOf ["<a/>"; "<b/>"]
  /\ upToIndentBlankAndFinalTrim
       (formatXml (u "<a/> " ++ [LF] ++ u "<b/>") twoSpaces emptySettings)
     <> upToIndentBlankAndFinalTrim (u "<a/> " ++ [LF] ++ u "<b/>").
Proof. split; vm_compute; [reflexivity | discriminate]. Qed.

(** C10 (amended): the formatter neither splits nor joins lines: the
    trimmed contents of the non-blank lines of the output are those of
    the non-blank lines of the input, one for one and in the same order;
    and every line of the output is a number of indent units followed
    by its trimmed content, so that input and output differ only in the
    white space on both sides of the lines (leading indentation, and
    trailing white space with the carriage return of a CRLF line end)
    and in the blank lines. *)
Theorem lines_never_split_or_joined (content : jsstring)
  (o : FormattingOptions) (s : Settings) :
  contentLines (formatXml content o s) = contentLines content
  /\ Forall (fun l => exists n, l = repeat (indentChar o) n ++ trim l)
            (split_lines (formatXml content o s)).
Proof.
  split; [apply formatXml_content | apply formatXml_indented].
Qed.

(** ** Further properties of the formatter *)

Section LoopInputs.

Variable ic : jsstring.
Variable keepNL : bool.

(** The output lines depend on the trimmed input lines only. *)
Lemma outLines_trim_ext (la lb : list jsstring) (d : Z) (pw : bool) :
  map trim la = map trim lb ->
  outLines ic keepNL la d pw = outLines ic keepNL lb d pw.
Proof.
  revert lb d pw. induction la as [|a la IH]; intros [|b lb] d pw E;
    try discriminate; [reflexivity|].
  cbn [map] in E. injection E as Eh Et.
  rewrite !outLines_cons, (renderLine_trim ic keepNL d pw a b Eh).
  destruct (renderLine ic keepNL d pw b) as [[[l|] d'] pw'];
    rewrite (IH lb d' pw' Et); reflexivity.
Qed.

(** In verbatim mode, a line without the CDATA end marker leaves the
    depth alone and the mode on. *)
Lemma step_verbatim (st : LoopState) (raw : jsstring) :
  preserveWhitespace st = true ->
  includes (u "]]>") (trim raw) = false ->
  depth (step ic keepNL st raw) = depth st
  /\ preserveWhitespace (step ic keepNL st raw) = true.
Proof.
  intros Hpw Hend. unfold step. destruct (trim raw) as [|c t].
  - destruct keepNL; cbn; auto.
  - destruct (startsWith (u "<?") (c :: t) || startsWith (u "<!--") (c :: t));
      [cbn; auto|].
    rewrite Hend, Hpw.
    destruct (includes (u "<![CDATA[") (c :: t)); cbn; auto.
Qed.

(** In verbatim mode, with blank lines kept, a line without a CDATA
    marker is appended trimmed and without indent. *)
Lemma step_verbatim_output (st : LoopState) (raw : jsstring) :
  keepNL = true ->
  preserveWhitespace st = true ->
  includes (u "<![CDATA[") (trim raw) = false ->
  formatted (step ic keepNL st raw) = formatted st ++ trim raw ++ [LF].
Proof.
  intros K Hpw Hopen. unfold step. rewrite K.
  destruct (trim raw) as [|c t]; [reflexivity|].
  rewrite Hopen, Hpw.
  destruct (startsWith (u "<?") (c :: t) || startsWith (u "<!--") (c :: t));
    reflexivity.
Qed.

End LoopInputs.

Section DroppedBlanks.

Variable ic : jsstring.
Hypothesis ic_unit : indentUnit ic.

(** When blank lines are not kept, the output has one line for every
    non-blank input line, and no empty line. *)
Lemma outLines_dropped (lines : list jsstring) (d : Z) (pw : bool) :
  map trim (outLines ic false lines d pw) = filter nonBlank (map trim lines)
  /\ Forall (fun l => l <> []) (outLines ic false lines d pw).
Proof.
  revert d pw. induction lines as [|raw rest IH]; intros d pw.
  - split; [reflexivity | constructor].
  - rewrite outLines_cons. cbn [map filter].
    pose proof (renderLine_props ic false ic_unit d pw raw) as Hp.
    assert (B : trim raw = [] ->
                renderLine ic false d pw raw = (None, d, pw)).
    { intros E. rewrite (renderLine_trim ic false d pw raw []) by exact E.
      apply renderLine_blank. }
    unfold nonBlank at 1. rewrite JsStringFacts.trim_idem.
    destruct (renderLine ic false d pw raw) as [[[l|] d'] pw'].
    + destruct Hp as (Ht & _).
      destruct (trim raw) as [|c t] eqn:E; [specialize (B eq_refl); discriminate|].
      destruct (IH d' pw') as [IH1 IH2]. split.
      * cbn [map]. rewrite Ht, IH1. reflexivity.
      * constructor; [|exact IH2]. intros ->. discriminate.
    + destruct Hp as (-> & _). apply IH.
Qed.

End DroppedBlanks.

Module MoreFormatFacts.

Import JsStringFacts LinesFacts FormatFacts.

Lemma dropTrailingBlank_nonblank (ls : list jsstring) :
  Forall (fun l => l <> []) ls -> dropTrailingBlank ls = ls.
Proof.
  induction 1 as [|l ls Hl _ IH]; [reflexivity|].
  rewrite dropTrailingBlank_cons, IH.
  destruct ls; [|reflexivity]. destruct l; [tauto | reflexivity].
Qed.

Lemma contentLines_nil_blank (ls : list jsstring) :
  filter nonBlank (map trim ls) = [] -> Forall (fun l => trim l = []) ls.
Proof.
  induction ls as [|l ls IH]; [constructor|].
  cbn [map filter]. unfold nonBlank at 1. rewrite trim_idem.
  destruct (trim l) eqn:E; [|discriminate].
  intros H. constructor; [exact E | exact (IH H)].
Qed.

Lemma blank_lines_map (ls : list jsstring) :
  Forall (fun l => trim l = []) ls ->
  map trim ls = map trim (map (fun _ => []) ls).
Proof.
  induction 1 as [|l ls Hl _ IH]; [reflexivity|].
  cbn [map]. rewrite Hl, IH. reflexivity.
Qed.

Lemma formatXml_blank_input (content : jsstring) (o : FormattingOptions)
  (s : Settings) :
  contentLines content = [] -> formatXml content o s = [].
Proof.
  intros H. apply contentLines_nil_blank, blank_lines_map in H.
  rewrite formatXml_lines. unfold linesOf.
  rewrite (outLines_trim_ext _ _ _ _ 0 false H).
  rewrite dropTrailingBlank_blank; [reflexivity|].
  apply outLines_blank. clear H.
  induction (split_lines content); cbn [map]; constructor;
    [reflexivity | assumption].
Qed.

Lemma formatXml_joined (content : jsstring) (o : FormattingOptions)
  (s : Settings) :
  joinLines (split_lines (formatXml content o s)) = formatXml content o s.
Proof.
  rewrite split_formatXml, formatXml_lines.
  destruct (dropTrailingBlank (linesOf content o s)); reflexivity.
Qed.

Lemma formatXml_tidy_lines (content : jsstring) (o : FormattingOptions)
  (s : Settings) :
  Forall tidy (split_lines (formatXml content o s)).
Proof.
  rewrite split_formatXml. pose proof (linesOf_tidy content o s) as T.
  destruct (dropTrailingBlank (linesOf content o s)); [|exact T].
  constructor; [|constructor]. split; [intros [] | reflexivity].
Qed.

End MoreFormatFacts.

Import MoreFormatFacts.

(** X1: the result depends on the trimmed lines of the input only: two
    texts whose lines have the same trimmed contents (different indents,
    trailing white space, CRLF or LF line ends) format to the same
    text. *)
Theorem formatXml_ignores_surrounding_space (a b : jsstring)
  (o : FormattingOptions) (s : Settings) :
  map trim (split_lines a) = map trim (split_lines b) ->
  formatXml a o s = formatXml b o s.
Proof.
  intros E. rewrite !formatXml_lines. unfold linesOf.
  rewrite (outLines_trim_ext _ _ _ _ 0 false E). reflexivity.
Qed.

Lemma formatXml_ignores_surrounding_space_witness :
  map trim (split_lines
              (u "<a>  " ++ [CR; LF] ++ u "      <b/>" ++ [CR; LF; TAB]
               ++ u "</a>"))
  = map trim (split_lines unformattedText)
  /\ formatXml
       (u "<a>  " ++ [CR; LF] ++ u "      <b/>" ++ [CR; LF; TAB] ++ u "</a>")
       twoSpaces emptySettings
     = formatXml unformattedText twoSpaces emptySettings.
Proof.
  split; [reflexivity|].
  apply formatXml_ignores_surrounding_space. reflexivity.
Defined.

(** X2: the result is in normal form: its lines are separated by single
    line feeds (splitting it and joining the lines with a line feed
    gives it back, so it has no CRLF), no line of it contains a line
    feed or ends in white space, and the text itself does not end in
    white space. *)
Theorem formatXml_normal_form (content : jsstring) (o : FormattingOptions)
  (s : Settings) :
  joinLines (split_lines (formatXml content o s)) = formatXml content o s
  /\ Forall tidy (split_lines (formatXml content o s))
  /\ trimEnd (formatXml content o s) = formatXml content o s.
Proof.
  split; [apply formatXml_joined|]. split; [apply formatXml_tidy_lines|].
  unfold formatXml. apply trimEnd_idem.
Qed.

(** X3: when [preserveNewLines] is [false], the lines of the result are
    the non-blank lines of the input, trimmed and indented: no blank
    line is left (an input without content gives the empty text). *)
Theorem no_blank_line_when_not_preserved (content : jsstring)
  (o : FormattingOptions) (s : Settings) :
  keepsNewLines s = false ->
  map trim (split_lines (formatXml content o s))
  = match contentLines content with
    | [] => [[]]
    | l :: ls => l :: ls
    end.
Proof.
  intros K. rewrite split_formatXml. unfold linesOf. rewrite K.
  destruct (outLines_dropped (indentChar o) (indentChar_unit o)
              (split_lines content) 0 false) as [E N].
  rewrite (dropTrailingBlank_nonblank _ N).
  unfold contentLines. rewrite <- E.
  destruct (outLines (indentChar o) false (split_lines content) 0 false);
    reflexivity.
Qed.

Lemma no_blank_line_when_not_preserved_witness :
  keepsNewLines
    (settingsOfFormat
       {| enable := None; wrapLineLength := None;
          preserveNewLines := Some false; maxPreserveNewLines := None;
          indentInnerXml := None; wrapAttributes := None;
          wrapAttributesIndentSize := None;
          unformattedContentDelimiter := None |}) = false
  /\ map trim
       (split_lines
          (formatXml (textOf [""; "<r>"; ""; "  "; "<a/>"; "</r>"; ""])
             twoSpaces
             (settingsOfFormat
                {| enable := None; wrapLineLength := None;
                   preserveNewLines := Some false;
                   maxPreserveNewLines := None;
                   indentInnerXml := None; wrapAttributes := None;
                   wrapAttributesIndentSize := None;
                   unformattedContentDelimiter := None |})))
     = map u ["<r>"; "<a/>"; "</r>"].
Proof.
  split; [reflexivity|].
  apply (no_blank_line_when_not_preserved
           (textOf [""; "<r>"; ""; "  "; "<a/>"; "</r>"; ""])).
  reflexivity.
Defined.

(** X4: the result is the empty text exactly when the input has no
    content, that is when all its lines are blank (the empty text
    included), whatever the options and the settings. *)
Theorem formatXml_empty_iff (content : jsstring) (o : FormattingOptions)
  (s : Settings) :
  formatXml content o s = [] <-> contentLines content = [].
Proof.
  split.
  - intros E. rewrite <- (FormatFacts.formatXml_content content o s), E.
    reflexivity.
  - apply formatXml_blank_input.
Qed.

(** ** The walk, by kind of line *)

Module KindFacts.

Local Open Scope N_scope.

Lemma startsWith_app (p t : jsstring) : startsWith p (p ++ t) = true.
Proof.
  induction p as [|c p IH]; [destruct t; reflexivity|].
  cbn. rewrite N.eqb_refl, IH. reflexivity.
Qed.

Lemma startsWith_prefix (p s : jsstring) :
  startsWith p s = true -> exists t, s = p ++ t.
Proof.
  revert s. induction p as [|c p IH]; intros s H.
  - exists s. reflexivity.
  - destruct s as [|x s]; [discriminate|]. cbn in H.
    apply andb_true_iff in H. destruct H as [E H].
    apply N.eqb_eq in E. subst x.
    destruct (IH s H) as (t & ->). exists t. reflexivity.
Qed.

Lemma includes_cons (p : jsstring) (c : char) (s : jsstring) :
  includes p (c :: s) = startsWith p (c :: s) || includes p s.
Proof. reflexivity. Qed.

Lemma includes_suffix (p a t : jsstring) : includes p (a ++ p ++ t) = true.
Proof.
  induction a as [|c a IH].
  - cbn [app]. pose proof (startsWith_app p t) as H.
    destruct (p ++ t); cbn [includes]; rewrite H; reflexivity.
  - cbn [app]. rewrite includes_cons, IH. apply orb_true_r.
Qed.

(** A string that ends with [p] includes [p]. *)
Lemma endsWith_includes (p s : jsstring) :
  endsWith p s = true -> includes p s = true.
Proof.
  unfold endsWith. intros H. apply startsWith_prefix in H.
  destruct H as (t & E). apply (f_equal (@rev char)) in E.
  rewrite rev_involutive, rev_app_distr, rev_involutive in E. subst s.
  rewrite <- (app_nil_r p) at 2. apply includes_suffix.
Qed.

Local Open Scope Z_scope.

Section Walk.

Variable ic : jsstring.
Variable keepNL : bool.

(** Outside verbatim mode, the kind of the trimmed line gives the new
    depth and the new mode. *)
Lemma step_kind (st : LoopState) (raw : jsstring) :
  preserveWhitespace st = false ->
  depth (step ic keepNL st raw)
  = match classify (trim raw) with
    | ClosingTag => Z.max 0 (depth st - 1)
    | OpeningTag => depth st + 1
    | _ => depth st
    end
  /\ preserveWhitespace (step ic keepNL st raw)
     = match classify (trim raw) with
       | CdataOpen false => true
       | _ => false
       end.
Proof.
  intros Hpw. unfold step, classify. destruct (trim raw) as [|c t].
  - destruct keepNL; cbn; auto.
  - destruct (startsWith (u "<?") (c :: t) || startsWith (u "<!--") (c :: t));
      [cbn; auto|].
    destruct (includes (u "<![CDATA[") (c :: t)).
    { destruct (includes (u "]]>") (c :: t)); cbn; auto. }
    rewrite Hpw.
    destruct (includes (u "/>") (c :: t)) eqn:Esc; [cbn; auto|].
    destruct (startsWith (u "</") (c :: t)); [cbn; auto|].
    destruct (startsWith (u "<") (c :: t) && negb (startsWith (u "<!") (c :: t))).
    + destruct (endsWith (u "/>") (c :: t)) eqn:Ee.
      * apply endsWith_includes in Ee. congruence.
      * cbn; auto.
    + destruct (negb (startsWith (u "<") (c :: t))); cbn; auto.
Qed.

(** Outside verbatim mode, a line that is neither blank nor a
    declaration or comment is appended behind the indent of the depth it
    is rendered at: the new depth for a closing tag, the current depth
    otherwise. *)
Lemma step_kind_output (st : LoopState) (raw : jsstring) :
  preserveWhitespace st = false ->
  classify (trim raw) <> Blank -> classify (trim raw) <> Declaration ->
  formatted (step ic keepNL st raw)
  = formatted st
    ++ indent ic (match classify (trim raw) with
                  | ClosingTag => Z.max 0 (depth st - 1)
                  | _ => depth st
                  end)
    ++ trim raw ++ [LF].
Proof.
  intros Hpw. unfold step, classify. destruct (trim raw) as [|c t]; [tauto|].
  destruct (startsWith (u "<?") (c :: t) || startsWith (u "<!--") (c :: t));
    [tauto|].
  intros _ _. rewrite Hpw.
  destruct (includes (u "<![CDATA[") (c :: t)); [reflexivity|].
  destruct (includes (u "/>") (c :: t)); [reflexivity|].
  destruct (startsWith (u "</") (c :: t)); [reflexivity|].
  destruct (startsWith (u "<") (c :: t) && negb (startsWith (u "<!") (c :: t)));
    [reflexivity|].
  destruct (negb (startsWith (u "<") (c :: t))); reflexivity.
Qed.

(** An iteration only appends to the output. *)
Lemma step_appends (st : LoopState) (raw : jsstring) :
  exists piece, formatted (step ic keepNL st raw) = formatted st ++ piece.
Proof.
  unfold step. destruct (trim raw) as [|c t].
  - destruct keepNL; [eexists; reflexivity|].
    exists []. rewrite app_nil_r. reflexivity.
  - branches; eexists; reflexivity.
Qed.

Lemma run_appends (lines : list jsstring) (st : LoopState) :
  exists out, formatted (run ic keepNL lines st) = formatted st ++ out.
Proof.
  revert st. induction lines as [|raw rest IH]; intros st.
  - exists []. rewrite app_nil_r. reflexivity.
  - destruct (IH (step ic keepNL st raw)) as (out & E).
    destruct (step_appends st raw) as (piece & E').
    exists (piece ++ out). unfold run in *. cbn [fold_left].
    rewrite E, E', app_assoc. reflexivity.
Qed.

Lemma run_cons (raw : jsstring) (rest : list jsstring) (st : LoopState) :
  run ic keepNL (raw :: rest) st = run ic keepNL rest (step ic keepNL st raw).
Proof. reflexivity. Qed.

Lemma run_app (a b : list jsstring) (st : LoopState) :
  run ic keepNL (a ++ b) st = run ic keepNL b (run ic keepNL a st).
Proof. unfold run. apply fold_left_app. Qed.

(** Verbatim mode lasts, with the depth unchanged, as long as no line
    has the CDATA end marker. *)
Lemma run_verbatim (lines : list jsstring) (st : LoopState) :
  preserveWhitespace st = true ->
  Forall (fun raw => includes (u "]]>") (trim raw) = false) lines ->
  depth (run ic keepNL lines st) = depth st
  /\ preserveWhitespace (run ic keepNL lines st) = true.
Proof.
  intros Hpw H. revert st Hpw.
  induction H as [|raw rest Hr _ IH]; intros st Hpw; [auto|].
  rewrite run_cons.
  destruct (step_verbatim ic keepNL st raw Hpw Hr) as [Ed Ep].
  destruct (IH _ Ep) as [Ed' Ep']. rewrite Ed', Ed. auto.
Qed.

Lemma run_verbatim_output (lines : list jsstring) (st : LoopState) :
  keepNL = true ->
  preserveWhitespace st = true ->
  Forall (fun raw => includes (u "]]>") (trim raw) = false) lines ->
  Forall (fun raw => includes (u "<![CDATA[") (trim raw) = false) lines ->
  formatted (run ic keepNL lines st)
  = formatted st ++ unlines (map trim lines).
Proof.
  intros K Hpw H. revert st Hpw.
  induction H as [|raw rest Hr _ IH]; intros st Hpw Ho.
  - cbn. rewrite app_nil_r. reflexivity.
  - apply Forall_cons_iff in Ho. destruct Ho as [Ho1 Ho2]. rewrite run_cons.
    destruct (step_verbatim ic keepNL st raw Hpw Hr) as [_ Ep].
    rewrite (IH _ Ep Ho2), (step_verbatim_output ic keepNL st raw K Hpw Ho1).
    cbn [map]. rewrite LinesFacts.unlines_cons, <- !app_assoc. reflexivity.
Qed.

(** A line with the CDATA end marker that is not a declaration or a
    comment ends verbatim mode, at the same depth. *)
Lemma step_endsVerbatim (st : LoopState) (raw : jsstring) :
  preserveWhitespace st = true ->
  endsVerbatim (trim raw) = true ->
  depth (step ic keepNL st raw) = depth st
  /\ preserveWhitespace (step ic keepNL st raw) = false.
Proof.
  intros Hpw H. unfold endsVerbatim in H. apply andb_true_iff in H.
  destruct H as [He Hd]. apply negb_true_iff in Hd.
  unfold step. destruct (trim raw) as [|c t]; [discriminate|].
  rewrite Hd, He, Hpw.
  destruct (includes (u "<![CDATA[") (c :: t)); cbn; auto.
Qed.

(** An iteration does not look at the output so far. *)
Lemma step_frame (f : jsstring) (d : Z) (pw : bool) (raw : jsstring) :
  step ic keepNL
    {| formatted := f; depth := d; preserveWhitespace := pw |} raw
  = {| formatted :=
         f ++ formatted
                (step ic keepNL
                   {| formatted := []; depth := d;
                      preserveWhitespace := pw |} raw);
       depth :=
         depth (step ic keepNL
                  {| formatted := []; depth := d;
                     preserveWhitespace := pw |} raw);
       preserveWhitespace :=
         preserveWhitespace
           (step ic keepNL
              {| formatted := []; depth := d;
                 preserveWhitespace := pw |} raw) |}.
Proof.
  unfold step. cbn [depth preserveWhitespace].
  destruct (trim raw) as [|c t].
  - destruct keepNL; cbn; [|rewrite app_nil_r]; reflexivity.
  - branches; reflexivity.
Qed.

(** The loop appends to the output so far what it outputs from the
    empty output, and ends with the same depth and mode. *)
Lemma run_frame (lines : list jsstring) (f : jsstring) (d : Z) (pw : bool) :
  run ic keepNL lines
    {| formatted := f; depth := d; preserveWhitespace := pw |}
  = {| formatted :=
         f ++ formatted
                (run ic keepNL lines
                   {| formatted := []; depth := d;
                      preserveWhitespace := pw |});
       depth :=
         depth (run ic keepNL lines
                  {| formatted := []; depth := d;
                     preserveWhitespace := pw |});
       preserveWhitespace :=
         preserveWhitespace
           (run ic keepNL lines
              {| formatted := []; depth := d;
                 preserveWhitespace := pw |}) |}.
Proof.
  revert f d pw. induction lines as [|raw rest IH]; intros f d pw.
  - cbn. rewrite app_nil_r. reflexivity.
  - rewrite !run_cons, step_frame.
    destruct (step ic keepNL
                {| formatted := []; depth := d; preserveWhitespace := pw |}
                raw) as [p d' pw'].
    cbn [formatted depth preserveWhitespace].
    rewrite (IH (f ++ p)), (IH p). cbn [formatted depth preserveWhitespace].
    rewrite app_assoc. reflexivity.
Qed.

(** Balanced lines bring the walk back to the depth and the mode it
    started from. *)
Lemma run_balanced (lines : list jsstring) :
  Balanced lines ->
  forall st, preserveWhitespace st = false -> 0 <= depth st ->
  depth (run ic keepNL lines st) = depth st
  /\ preserveWhitespace (run ic keepNL lines st) = false.
Proof.
  induction 1 as [| raw rest Hn _ IHrest
                  | opening body closing rest Ho _ IHbody Hc _ IHrest
                  | opening body closing rest Ho Hbody Hc _ IHrest];
    intros st Hpw Hd.
  - auto.
  - rewrite run_cons. destruct (step_kind st raw Hpw) as [Ed Ep].
    assert (depth (step ic keepNL st raw) = depth st
            /\ preserveWhitespace (step ic keepNL st raw) = false) as [Ed' Ep'].
    { rewrite Ed, Ep. destruct (classify (trim raw)) as [| |[|]| | | | |];
        try discriminate; auto. }
    destruct (IHrest _ Ep') as [E1 E2]; [lia|]. rewrite E1, E2. auto.
  - rewrite run_cons, run_app, run_cons.
    destruct (step_kind st opening Hpw) as [Ed Ep]. rewrite Ho in Ed, Ep.
    destruct (IHbody _ Ep) as [Ed1 Ep1]; [lia|].
    destruct (step_kind (run ic keepNL body (step ic keepNL st opening))
                closing Ep1) as [Ed2 Ep2].
    rewrite Hc in Ed2, Ep2.
    destruct (IHrest _ Ep2) as [E1 E2]; [lia|]. rewrite E1, E2. split; [lia|auto].
  - rewrite run_cons, run_app, run_cons.
    destruct (step_kind st opening Hpw) as [Ed Ep]. rewrite Ho in Ed, Ep.
    destruct (run_verbatim body _ Ep Hbody) as [Ed1 Ep1].
    destruct (step_endsVerbatim _ closing Ep1 Hc) as [Ed2 Ep2].
    destruct (IHrest _ Ep2) as [E1 E2]; [lia|]. rewrite E1, E2. split; [lia|auto].
Qed.

End Walk.

End KindFacts.

(** ** The server *)

Module ServerFacts.

Import Server.

Lemma truthy_getMember (v : JsValue) (k : string) :
  truthy v = true -> exists x, getMember v k = Some x.
Proof.
  destruct v; cbn; try discriminate; intros _; eexists; reflexivity.
Qed.

(** The interface view reads [enable] as the handlers do. *)
Lemma formatDisabled_view (settings : JsValue) (b : bool) :
  formatEnableIsFalse settings = Some b ->
  formatDisabled (viewSettings settings) = b.
Proof.
  unfold formatEnableIsFalse, viewSettings, getOptional, formatDisabled,
    xml_format.
  destruct (getMember settings "xml") as [x|]; [|discriminate].
  intros E. injection E as <-. cbn [xml].
  destruct x as [| |b|n|s|items|members]; try reflexivity. cbn.
  destruct (lookup "format" members) as [| |b|n|s|items|fm]; try reflexivity.
  cbn. destruct (lookup "enable" fm) as [| |[|]|n|s|items|em]; reflexivity.
Qed.

(** The interface view reads [preserveNewLines] as [formatXml] does. *)
Lemma keepsNewLines_view (settings : JsValue) (b : bool) :
  preserveNewLinesIsNotFalse settings = Some b ->
  keepsNewLines (viewSettings settings) = b.
Proof.
  unfold preserveNewLinesIsNotFalse, viewSettings, getOptional, keepsNewLines,
    xml_format, orElse.
  destruct (getMember settings "xml") as [x|]; [|discriminate].
  intros E. injection E as <-. cbn [xml].
  destruct x as [| |b|n|s|items|members]; try reflexivity. cbn.
  destruct (lookup "format" members) as [| |b|n|s|items|fm]; cbn;
    try reflexivity.
  - destruct b; reflexivity.
  - destruct (negb (n =? 0)); reflexivity.
  - destruct (negb (String.eqb s "")); reflexivity.
  - destruct (lookup "preserveNewLines" fm) as [| |[|]|n|s|items|em];
      reflexivity.
Qed.

Section WithConfiguration.

Variable getConfiguration : string -> JsValue.

Lemma getDocumentSettings_global (st : ServerState) (resource : string) :
  getDocumentSettings getConfiguration st resource = (globalSettings st, st).
Proof. reflexivity. Qed.

Lemma validateTextDocument_state (st : ServerState) (d : TextDocument) :
  snd (validateTextDocument getConfiguration st d) = st
  /\ Forall (fun p => diagnostics p = [])
            (fst (validateTextDocument getConfiguration st d)).
Proof.
  unfold validateTextDocument. rewrite getDocumentSettings_global.
  destruct (validateEnabledIsFalse (globalSettings st)) as [[|]|]; cbn;
    split; auto.
Qed.

Lemma validateAll_state (st : ServerState) (all : list TextDocument) :
  snd (validateAll getConfiguration st all) = st
  /\ Forall (fun p => diagnostics p = [])
            (fst (validateAll getConfiguration st all)).
Proof.
  induction all as [|d rest IH]; cbn [validateAll]; [split; auto|].
  destruct (validateTextDocument_state st d) as [E1 F1].
  destruct (validateTextDocument getConfiguration st d) as [sent st1].
  cbn in E1, F1. subst st1.
  destruct (validateAll getConfiguration st rest) as [sent' st2].
  cbn in *. destruct IH as [-> F2]. split; [reflexivity|].
  apply Forall_app; auto.
Qed.

Lemma handle_steady (st : ServerState) (e : Event) :
  steady st ->
  steady (snd (handle getConfiguration st e))
  /\ Forall (fun p => diagnostics p = [])
            (fst (handle getConfiguration st e)).
Proof.
  intros [T C]. destruct e as [[fs|]| |change all|closed|changed];
    cbn [handle onInitialize onDidClose fst snd].
  - split; [split; assumption | constructor].
  - split; [split; assumption | constructor].
  - split; [split; assumption | constructor].
  - unfold onDidChangeConfiguration. cbn [hasConfigurationCapability].
    destruct (getMember change "settings") as [settings|];
      [|split; [split; assumption | constructor]].
    destruct (getMember settings "xml") as [x|];
      [|split; [split; assumption | constructor]].
    match goal with
    | |- context [validateAll _ ?s _] =>
        destruct (validateAll_state s all) as [E F]
    end.
    split; [|exact F]. rewrite E. split; cbn; [|exact C].
    unfold orElse. destruct (truthy x) eqn:Tx; [exact Tx | reflexivity].
  - split; [|constructor]. split; cbn; [exact T|]. rewrite C. reflexivity.
  - destruct (validateTextDocument_state st changed) as [E F].
    split; [|exact F]. rewrite E. split; assumption.
Qed.

Lemma handleAll_steady (events : list Event) (st : ServerState) :
  steady st ->
  steady (snd (handleAll getConfiguration st events))
  /\ Forall (fun p => diagnostics p = [])
            (fst (handleAll getConfiguration st events)).
Proof.
  revert st. induction events as [|e rest IH]; intros st S;
    cbn [handleAll]; [split; [exact S | constructor]|].
  destruct (handle_steady st e S) as [S1 F1].
  destruct (handle getConfiguration st e) as [sent st1]. cbn in S1, F1.
  destruct (IH st1 S1) as [S2 F2].
  destruct (handleAll getConfiguration st1 rest) as [sent' st2].
  cbn in *. split; [exact S2 | apply Forall_app; auto].
Qed.

End WithConfiguration.

End ServerFacts.

(** ** Further properties: verbatim mode, balanced input, edits *)

Import KindFacts.

(** X5: once a CDATA section is open, verbatim mode lasts and the depth
    stays as it is over all the lines up to the first one with the end
    marker, to the end of the input when there is none; with blank
    lines kept, those lines that do not open a CDATA section themselves
    are appended trimmed, without indent. *)
Theorem verbatim_until_end_marker (ic : jsstring) (keepNL : bool)
  (lines : list jsstring) (st : LoopState) :
  preserveWhitespace st = true ->
  Forall (fun raw => includes (u "]]>") (trim raw) = false) lines ->
  depth (run ic keepNL lines st) = depth st
  /\ preserveWhitespace (run ic keepNL lines st) = true
  /\ (keepNL = true ->
      Forall (fun raw => includes (u "<![CDATA[") (trim raw) = false) lines ->
      formatted (run ic keepNL lines st)
      = formatted st ++ unlines (map trim lines)).
Proof.
  intros Hpw H. destruct (run_verbatim ic keepNL lines st Hpw H) as [Ed Ep].
  repeat split; try assumption.
  intros K Ho. apply run_verbatim_output; assumption.
Qed.

Lemma verbatim_until_end_marker_witness :
  preserveWhitespace
    {| formatted := []; depth := 2; preserveWhitespace := true |} = true
  /\ Forall (fun raw => includes (u "]]>") (trim raw) = false)
       [u "   <a>"; u ""; u "</b>  "; u "x"]
  /\ Forall (fun raw => includes (u "<![CDATA[") (trim raw) = false)
       [u "   <a>"; u ""; u "</b>  "; u "x"]
  /\ run (indentChar twoSpaces) true [u "   <a>"; u ""; u "</b>  "; u "x"]
       {| formatted := []; depth := 2; preserveWhitespace := true |}
     = {| formatted := unlines [u "<a>"; u ""; u "</b>"; u "x"];
          depth := 2; preserveWhitespace := true |}.
Proof.
  split; [reflexivity|].
  split; [repeat constructor|]. split; [repeat constructor|].
  pose proof (verbatim_until_end_marker (indentChar twoSpaces) true
                [u "   <a>"; u ""; u "</b>  "; u "x"]
                {| formatted := []; depth := 2; preserveWhitespace := true |}
                eq_refl ltac:(repeat constructor)) as (Ed & Ep & Ef).
  specialize (Ef eq_refl ltac:(repeat constructor)).
  destruct (run (indentChar twoSpaces) true
              [u "   <a>"; u ""; u "</b>  "; u "x"]
              {| formatted := []; depth := 2; preserveWhitespace := true |})
    as [f d p].
  cbn [formatted depth preserveWhitespace] in *. subst. reflexivity.
Defined.

(** X6: an edit of range formatting has the caller's range, and its new
    text is a fixed point of the formatter: range formatting of a range
    that holds this text returns no edit. *)
Theorem range_formatting_settles (document : TextDocument) (r : Range)
  (o : FormattingOptions) (s : Settings) (e : TextEdit) :
  In e (formatXmlDocumentRange document r o s) ->
  range e = r
  /\ formatXml (newText e) o s = newText e
  /\ forall document' r',
       getText document' (Some r') = newText e ->
       formatXmlDocumentRange document' r' o s = [].
Proof.
  unfold formatXmlDocumentRange at 1.
  destruct (JsString.eqb _ _); [intros []|].
  intros [<-|[]]. cbn [range newText].
  split; [reflexivity|]. split; [apply formatXml_idem|].
  intros document' r' E. unfold formatXmlDocumentRange.
  rewrite E, formatXml_idem, eqb_refl. reflexivity.
Qed.

Lemma range_formatting_settles_witness :
  In {| range := innerRange; newText := textOf ["<a>"; "  <b/>"; "</a>"] |}
     (formatXmlDocumentRange nestedDocument innerRange twoSpaces emptySettings)
  /\ formatXmlDocumentRange
       (plainDocument "file:///n.xml" (textOf ["<a>"; "  <b/>"; "</a>"]))
       {| start := {| line := 0; character := 0 |};
          end_ := {| line := 0; character := 15 |} |}
       twoSpaces emptySettings = [].
Proof.
  split; [left; reflexivity|].
  apply (proj2 (proj2 (range_formatting_settles nestedDocument innerRange
                         twoSpaces emptySettings
                         {| range := innerRange;
                            newText := textOf ["<a>"; "  <b/>"; "</a>"] |}
                         (or_introl eq_refl)))).
  reflexivity.
Defined.

(** X7: the document formatting handler returns no edit for a document
    the server does not hold; and once the text of the document is the
    new text of the edit the handler returned, the same request returns
    no edit. *)
Theorem formatting_handler_settles
  (documents : string -> option TextDocument) (globalSettings : Settings)
  (params : DocumentFormattingParams) :
  (documents (textDocument params) = None ->
   onDocumentFormatting documents globalSettings params = [])
  /\ forall e,
       In e (onDocumentFormatting documents globalSettings params) ->
       forall documents' document',
         documents' (textDocument params) = Some document' ->
         getText document' None = newText e ->
         onDocumentFormatting documents' globalSettings params = [].
Proof.
  unfold onDocumentFormatting. split.
  - intros ->. reflexivity.
  - intros e He documents' document' Hd Ht. rewrite Hd.
    destruct (documents (textDocument params)) as [document|]; [|destruct He].
    destruct (formatDisabled _); [reflexivity|].
    unfold formatXmlDocument in *.
    destruct (JsString.eqb _ (getText document None)); [destruct He|].
    destruct He as [<-|[]]. cbn [newText] in Ht.
    rewrite Ht, formatXml_idem, eqb_refl. reflexivity.
Qed.

Lemma formatting_handler_settles_witness :
  In {| range := {| start := {| line := 0; character := 0 |};
                    end_ := {| line := 0; character := 13 |} |};
        newText := textOf ["<a>"; "  <b/>"; "</a>"] |}
     (onDocumentFormatting (fun _ => Some unformattedDocument) emptySettings
        {| textDocument := "file:///a.xml"; options := twoSpaces |})
  /\ onDocumentFormatting
       (fun _ => Some (plainDocument "file:///a.xml"
                         (textOf ["<a>"; "  <b/>"; "</a>"])))
       emptySettings
       {| textDocument := "file:///a.xml"; options := twoSpaces |} = [].
Proof.
  split; [left; reflexivity|].
  apply (proj2 (formatting_handler_settles
                  (fun _ => Some unformattedDocument) emptySettings
                  {| textDocument := "file:///a.xml"; options := twoSpaces |})
           {| range := {| start := {| line := 0; character := 0 |};
                          end_ := {| line := 0; character := 13 |} |};
              newText := textOf ["<a>"; "  <b/>"; "</a>"] |}
           (or_introl eq_refl)
           (fun _ => Some (plainDocument "file:///a.xml"
                             (textOf ["<a>"; "  <b/>"; "</a>"])))
           (plainDocument "file:///a.xml" (textOf ["<a>"; "  <b/>"; "</a>"])));
    reflexivity.
Defined.

(** X8: over balanced lines (every opening-tag line with its closing-tag
    line, every opened CDATA section closed) the walk comes back to the
    depth and the mode it started from; on a text whose lines are
    balanced it ends at depth 0, outside verbatim mode. *)
Theorem balanced_lines_restore_depth :
  (forall ic keepNL lines st,
      Balanced lines ->
      preserveWhitespace st = false -> 0 <= depth st ->
      depth (run ic keepNL lines st) = depth st
      /\ preserveWhitespace (run ic keepNL lines st) = false)
  /\ (forall content o s,
        Balanced (split_lines content) ->
        depth (stateAfter content o s (length (split_lines content))) = 0
        /\ preserveWhitespace
             (stateAfter content o s (length (split_lines content))) = false).
Proof.
  split.
  - intros ic keepNL lines st B. apply run_balanced. exact B.
  - intros content o s B. unfold stateAfter. rewrite firstn_all.
    apply (run_balanced _ _ _ B initialState); cbn; [reflexivity | lia].
Qed.

Lemma balanced_lines_restore_depth_witness :
  Balanced (split_lines (textOf ["<r>"; "<a>"; "text"; "</a>"; "<![CDATA[";
                                 "</r>"; "]]>"; "<b/>"; "</r>"]))
  /\ depth (stateAfter
              (textOf ["<r>"; "<a>"; "text"; "</a>"; "<![CDATA[";
                       "</r>"; "]]>"; "<b/>"; "</r>"])
              twoSpaces emptySettings 9) = 0.
Proof.
  assert (B : Balanced (split_lines
                          (textOf ["<r>"; "<a>"; "text"; "</a>"; "<![CDATA[";
                                   "</r>"; "]]>"; "<b/>"; "</r>"]))).
  { apply (Balanced_element (u "<r>")
             [u "<a>"; u "text"; u "</a>"; u "<![CDATA["; u "</r>"; u "]]>";
              u "<b/>"] (u "</r>") []);
      [reflexivity | | reflexivity | constructor].
    apply (Balanced_element (u "<a>") [u "text"] (u "</a>")
             [u "<![CDATA["; u "</r>"; u "]]>"; u "<b/>"]);
      [reflexivity | | reflexivity |].
    - apply Balanced_flat; [reflexivity | constructor].
    - apply (Balanced_cdata (u "<![CDATA[") [u "</r>"] (u "]]>") [u "<b/>"]);
        [reflexivity | repeat constructor | reflexivity |].
      apply Balanced_flat; [reflexivity | constructor]. }
  split; [exact B|].
  exact (proj1 (proj2 balanced_lines_restore_depth _ twoSpaces emptySettings B)).
Defined.

(** X9: outside verbatim mode, an opening-tag line, balanced lines and a
    closing-tag line are rendered as: the opening line behind the indent
    of the depth before the element, then exactly what the loop outputs
    for the body from one level deeper, then the closing line behind the
    same indent as the opening line; and the depth is back to what it
    was. *)
Theorem element_tags_aligned (ic : jsstring) (keepNL : bool)
  (opening : jsstring) (body : list jsstring) (closing : jsstring)
  (st : LoopState) :
  classify (trim opening) = OpeningTag ->
  Balanced body ->
  classify (trim closing) = ClosingTag ->
  preserveWhitespace st = false -> 0 <= depth st ->
  formatted (run ic keepNL (opening :: body ++ [closing]) st)
  = formatted st
    ++ (indent ic (depth st) ++ trim opening ++ [LF])
    ++ formatted (run ic keepNL body
                    {| formatted := []; depth := depth st + 1;
                       preserveWhitespace := false |})
    ++ (indent ic (depth st) ++ trim closing ++ [LF])
  /\ depth (run ic keepNL (opening :: body ++ [closing]) st) = depth st
  /\ preserveWhitespace (run ic keepNL (opening :: body ++ [closing]) st)
     = false.
Proof.
  intros Ho B Hc Hpw Hd.
  rewrite run_cons, run_app, run_cons.
  change (run ic keepNL [] ?x) with x.
  destruct (step_kind ic keepNL st opening Hpw) as [Ed Ep].
  rewrite Ho in Ed, Ep.
  pose proof (step_kind_output ic keepNL st opening Hpw) as Eo.
  rewrite Ho in Eo. specialize (Eo ltac:(discriminate) ltac:(discriminate)).
  destruct (step ic keepNL st opening) as [f1 d1 pw1].
  cbn [formatted depth preserveWhitespace] in Ed, Ep, Eo. subst f1 d1 pw1.
  destruct (run_balanced ic keepNL body B
              {| formatted := []; depth := depth st + 1;
                 preserveWhitespace := false |} eq_refl) as [Ed1 Ep1];
    [cbn; lia|].
  cbn [depth] in Ed1. rewrite run_frame, Ed1, Ep1.
  match goal with
  | |- context [step ic keepNL ?s closing] =>
      destruct (step_kind ic keepNL s closing eq_refl) as [Ed2 Ep2];
      pose proof (step_kind_output ic keepNL s closing eq_refl) as Ec
  end.
  rewrite Hc in Ed2, Ep2, Ec.
  specialize (Ec ltac:(discriminate) ltac:(discriminate)).
  cbn [formatted depth preserveWhitespace] in Ed2, Ep2, Ec.
  replace (Z.max 0 (depth st + 1 - 1)) with (depth st) in Ed2, Ec by lia.
  rewrite Ec, Ed2, Ep2.
  rewrite <- !app_assoc. repeat split; reflexivity.
Qed.

Lemma element_tags_aligned_witness :
  Balanced [u "<b/>"; u "text"]
  /\ formatted (run (indentChar twoSpaces) true
                  (u "<a>" :: [u "<b/>"; u "text"] ++ [u "</a>"])
                  {| formatted := []; depth := 1;
                     preserveWhitespace := false |})
     = unlines [u "  <a>"; u "    <b/>"; u "    text"; u "  </a>"].
Proof.
  assert (B : Balanced [u "<b/>"; u "text"]).
  { apply Balanced_flat; [reflexivity|].
    apply Balanced_flat; [reflexivity | constructor]. }
  split; [exact B|].
  apply (proj1 (element_tags_aligned (indentChar twoSpaces) true (u "<a>")
                  [u "<b/>"; u "text"] (u "</a>")
                  {| formatted := []; depth := 1;
                     preserveWhitespace := false |}
                  eq_refl B eq_refl eq_refl ltac:(cbn; lia))).
Defined.

(** X10: a line that reaches the opening-tag branch never ends with
    [/>] (such a line is taken by the self-closing branch before), so
    outside verbatim mode the opening-tag branch always takes the depth
    up by one. *)
Theorem opening_tag_always_deepens (ic : jsstring) (keepNL : bool)
  (st : LoopState) (raw : jsstring) :
  classify (trim raw) = OpeningTag ->
  endsWith (u "/>") (trim raw) = false
  /\ (preserveWhitespace st = false ->
      depth (step ic keepNL st raw) = depth st + 1).
Proof.
  intros H. split.
  - destruct (endsWith (u "/>") (trim raw)) eqn:E; [|reflexivity].
    apply endsWith_includes in E. unfold classify in H.
    destruct (trim raw) as [|c t]; [discriminate|].
    destruct (startsWith (u "<?") (c :: t) || startsWith (u "<!--") (c :: t));
      [discriminate|].
    destruct (includes (u "<![CDATA[") (c :: t)); [discriminate|].
    rewrite E in H. discriminate.
  - intros Hpw. destruct (step_kind ic keepNL st raw Hpw) as [Ed _].
    rewrite H in Ed. exact Ed.
Qed.

Lemma opening_tag_always_deepens_witness :
  classify (trim (u "  <item id='1'>")) = OpeningTag
  /\ depth (step (indentChar twoSpaces) true initialState
              (u "  <item id='1'>")) = 0 + 1.
Proof.
  split; [reflexivity|].
  apply (proj2 (opening_tag_always_deepens (indentChar twoSpaces) true
                  initialState (u "  <item id='1'>") eq_refl)).
  reflexivity.
Defined.

(** ** Properties of the server and of the client middleware *)

Import ServerFacts.

(** X11: whatever the sequence of events handled from the initial
    state, the global settings are never [undefined] or [null], so that
    reading [settings.xml] in a formatting handler does not throw; the
    cache of document settings stays empty; and every diagnostics
    notification sent carries an empty list. *)
Theorem server_steady (getConfiguration : string -> Server.JsValue)
  (events : list Server.Event) :
  let st := snd (Server.handleAll getConfiguration Server.initialServer events) in
  Server.truthy (Server.globalSettings st) = true
  /\ Server.documentSettings st = []
  /\ Forall (fun p => Server.diagnostics p = [])
       (fst (Server.handleAll getConfiguration Server.initialServer events))
  /\ (forall documents params,
        Server.onDocumentFormatting getConfiguration st documents params
        <> None)
  /\ (forall documents params,
        Server.onDocumentRangeFormatting getConfiguration st documents params
        <> None).
Proof.
  intros st.
  destruct (handleAll_steady getConfiguration events Server.initialServer)
    as [[T C] F]; [split; reflexivity|].
  fold st in T, C. repeat split; try assumption.
  - intros documents params. unfold Server.onDocumentFormatting.
    destruct (documents (textDocument params)); [|discriminate].
    rewrite getDocumentSettings_global. unfold Server.formatEnableIsFalse.
    destruct (truthy_getMember _ "xml" T) as (x & ->).
    destruct (Server.isFalse _); discriminate.
  - intros documents params. unfold Server.onDocumentRangeFormatting.
    destruct (documents (range_textDocument params)); [|discriminate].
    rewrite getDocumentSettings_global. unfold Server.formatEnableIsFalse.
    destruct (truthy_getMember _ "xml" T) as (x & ->).
    destruct (Server.isFalse _); discriminate.
Qed.

(** X12: a configuration change [{ settings: { xml: section } }] stores
    the section itself as the global settings.  When the section is an
    object without a member [xml] of its own, the handlers, which read
    [settings.xml], see no setting at all: whatever [format.enable],
    [format.preserveNewLines] and [validate.enabled] are in the section,
    every open document gets its (empty) diagnostics and the formatting
    handlers format as with empty settings. *)
Theorem configuration_section_not_seen
  (getConfiguration : string -> Server.JsValue) (st : Server.ServerState)
  (members : list (string * Server.JsValue)) (all : list TextDocument) :
  Server.lookup "xml" members = Server.JsUndefined ->
  let r := Server.handle getConfiguration st
             (Server.DidChangeConfiguration
                (Server.configurationChange (Server.JsObject members)) all) in
  Server.globalSettings (snd r) = Server.JsObject members
  /\ fst r = map (fun d => {| Server.diagnostics_uri := uri d;
                              Server.diagnostics := [] |}) all
  /\ (forall documents params,
        Server.onDocumentFormatting getConfiguration (snd r) documents params
        = Some (match documents (textDocument params) with
                | None => []
                | Some document =>
                    formatXmlDocument document (options params) emptySettings
                end))
  /\ (forall documents params,
        Server.onDocumentRangeFormatting getConfiguration (snd r) documents
          params
        = Some (match documents (range_textDocument params) with
                | None => []
                | Some document =>
                    formatXmlDocumentRange document (range_range params)
                      (range_options params) emptySettings
                end)).
Proof.
  intros H r.
  set (st' := {| Server.workspaceFolders := Server.workspaceFolders st;
                 Server.globalSettings := Server.JsObject members;
                 Server.documentSettings := Server.documentSettings st |}).
  assert (V : forall docs,
             Server.validateAll getConfiguration st' docs
             = (map (fun d => {| Server.diagnostics_uri := uri d;
                                 Server.diagnostics := [] |}) docs, st')).
  { assert (V1 : forall d,
               Server.validateTextDocument getConfiguration st' d
               = ([ {| Server.diagnostics_uri := uri d;
                       Server.diagnostics := [] |} ], st')).
    { intros d. unfold Server.validateTextDocument.
      rewrite getDocumentSettings_global.
      unfold Server.validateEnabledIsFalse. cbn. rewrite H. reflexivity. }
    induction docs as [|d rest IH]; [reflexivity|].
    cbn [Server.validateAll]. rewrite V1, IH. reflexivity. }
  assert (R : r = Server.validateAll getConfiguration st' all) by reflexivity.
  rewrite R, V. cbn [fst snd]. repeat split.
  - intros documents params. unfold Server.onDocumentFormatting.
    destruct (documents (textDocument params)); [|reflexivity].
    rewrite getDocumentSettings_global.
    unfold Server.formatEnableIsFalse, Server.viewSettings. cbn. rewrite H.
    reflexivity.
  - intros documents params. unfold Server.onDocumentRangeFormatting.
    destruct (documents (range_textDocument params)); [|reflexivity].
    rewrite getDocumentSettings_global.
    unfold Server.formatEnableIsFalse, Server.viewSettings. cbn. rewrite H.
    reflexivity.
Qed.

Lemma configuration_section_not_seen_witness :
  Server.lookup "xml"
    [("format", Server.JsObject [("enable", Server.JsBool false);
                                 ("preserveNewLines", Server.JsBool false)]);
     ("validate", Server.JsObject [("enabled", Server.JsBool false)])]
  = Server.JsUndefined
  /\ Server.onDocumentFormatting (fun _ => Server.JsUndefined)
       (snd (Server.handle (fun _ => Server.JsUndefined) Server.initialServer
               (Server.DidChangeConfiguration
                  (Server.configurationChange Server.disablingSection)
                  [unformattedDocument])))
       (fun _ => Some unformattedDocument)
       {| textDocument := "file:///a.xml"; options := twoSpaces |}
     = Some [ {| range := {| start := {| line := 0; character := 0 |};
                             end_ := {| line := 0; character := 13 |} |};
                 newText := textOf ["<a>"; "  <b/>"; "</a>"] |} ].
Proof.
  split; [reflexivity|].
  exact (proj1 (proj2 (proj2
           (configuration_section_not_seen (fun _ => Server.JsUndefined)
              Server.initialServer
              [("format",
                Server.JsObject [("enable", Server.JsBool false);
                                 ("preserveNewLines", Server.JsBool false)]);
               ("validate",
                Server.JsObject [("enabled", Server.JsBool false)])]
              [unformattedDocument] eq_refl)))
           (fun _ => Some unformattedDocument)
           {| textDocument := "file:///a.xml"; options := twoSpaces |}).
Defined.

(** X13: when the global settings are not [undefined] or [null], the
    formatting handlers on the variables of the server return what the
    handlers on the resolved settings return for the global settings
    seen through the interface [Settings], and that view reads
    [preserveNewLines] as [formatXml] does on the received value. *)
Theorem server_handlers_agree (getConfiguration : string -> Server.JsValue)
  (st : Server.ServerState) (documents : string -> option TextDocument)
  (params : DocumentFormattingParams)
  (rangeParams : DocumentRangeFormattingParams) :
  Server.truthy (Server.globalSettings st) = true ->
  Server.onDocumentFormatting getConfiguration st documents params
  = Some (onDocumentFormatting documents
            (Server.viewSettings (Server.globalSettings st)) params)
  /\ Server.onDocumentRangeFormatting getConfiguration st documents
       rangeParams
     = Some (onDocumentRangeFormatting documents
               (Server.viewSettings (Server.globalSettings st)) rangeParams)
  /\ Server.preserveNewLinesIsNotFalse (Server.globalSettings st)
     = Some (keepsNewLines (Server.viewSettings (Server.globalSettings st))).
Proof.
  intros T. destruct (truthy_getMember _ "xml" T) as (x & Hx).
  assert (E : Server.formatEnableIsFalse (Server.globalSettings st)
              = Some (formatDisabled
                        (Server.viewSettings (Server.globalSettings st)))).
  { unfold Server.formatEnableIsFalse. rewrite Hx. f_equal. symmetry.
    apply formatDisabled_view. unfold Server.formatEnableIsFalse.
    rewrite Hx. reflexivity. }
  unfold Server.onDocumentFormatting, Server.onDocumentRangeFormatting,
    onDocumentFormatting, onDocumentRangeFormatting, getDocumentSettings.
  rewrite !getDocumentSettings_global, E. repeat split.
  - destruct (documents (textDocument params)); [|reflexivity].
    destruct (formatDisabled _); reflexivity.
  - destruct (documents (range_textDocument rangeParams)); [|reflexivity].
    destruct (formatDisabled _); reflexivity.
  - unfold Server.preserveNewLinesIsNotFalse. rewrite Hx. f_equal. symmetry.
    apply keepsNewLines_view. unfold Server.preserveNewLinesIsNotFalse.
    rewrite Hx. reflexivity.
Qed.

Lemma server_handlers_agree_witness :
  Server.truthy
    (Server.JsObject [("xml", Server.disablingSection)]) = true
  /\ Server.onDocumentFormatting (fun _ => Server.JsUndefined)
       {| Server.workspaceFolders := [];
          Server.globalSettings :=
            Server.JsObject [("xml", Server.disablingSection)];
          Server.documentSettings := [] |}
       (fun _ => Some unformattedDocument)
       {| textDocument := "file:///a.xml"; options := twoSpaces |}
     = Some [].
Proof.
  split; [reflexivity|].
  apply (proj1 (server_handlers_agree (fun _ => Server.JsUndefined)
                  {| Server.workspaceFolders := [];
                     Server.globalSettings :=
                       Server.JsObject [("xml", Server.disablingSection)];
                     Server.documentSettings := [] |}
                  (fun _ => Some unformattedDocument)
                  {| textDocument := "file:///a.xml"; options := twoSpaces |}
                  {| range_textDocument := "file:///a.xml";
                     range_range := innerRange;
                     range_options := twoSpaces |}
                  eq_refl)).
Defined.

(** X14: the completion middleware keeps the items, their number, order
    and labels; it leaves alone every item whose range is absent or
    already an inserting and replacing pair; and applying it to its own
    result changes nothing, whatever the position methods of the editor
    answer. *)
Theorem completion_middleware_stable
  (isAfter isBeforeOrEqual : Position -> Position -> bool)
  (newRange : Position -> Position -> Range) (position : Position)
  (r : option Client.Proposals) :
  let update := Client.provideCompletionItem isAfter isBeforeOrEqual newRange
                  position in
  update (update r) = update r
  /\ option_map (fun p => map Client.label (Client.itemsOf p)) (update r)
     = option_map (fun p => map Client.label (Client.itemsOf p)) r
  /\ (forall item,
        (forall range, Client.itemRange item <> Client.PlainRange range) ->
        Client.updateRanges isAfter isBeforeOrEqual newRange position item
        = item).
Proof.
  intros update.
  assert (I : forall item,
             Client.updateRanges isAfter isBeforeOrEqual newRange position
               (Client.updateRanges isAfter isBeforeOrEqual newRange position
                  item)
             = Client.updateRanges isAfter isBeforeOrEqual newRange position
                 item).
  { intros [l [|rg|a b]]; try reflexivity.
    unfold Client.updateRanges. cbn [Client.itemRange Client.label].
    destruct (isAfter (end_ rg) position
              && isBeforeOrEqual (start rg) position) eqn:E;
      cbn [Client.itemRange Client.label]; [|rewrite E]; reflexivity. }
  assert (L : forall item,
             Client.label
               (Client.updateRanges isAfter isBeforeOrEqual newRange position
                  item) = Client.label item).
  { intros [l [|rg|a b]]; try reflexivity.
    unfold Client.updateRanges. cbn [Client.itemRange Client.label].
    destruct (isAfter _ _ && isBeforeOrEqual _ _); reflexivity. }
  unfold update, Client.provideCompletionItem. repeat split.
  - destruct r as [[items|b items]|]; cbn; [| |reflexivity];
      rewrite map_map; do 2 f_equal; apply map_ext; exact I.
  - destruct r as [[items|b items]|]; cbn; [| |reflexivity];
      rewrite map_map; f_equal; apply map_ext; exact L.
  - intros [l [|rg|a b]] H; try reflexivity. exfalso. apply (H rg).
    reflexivity.
Qed.

(** ** Declarations, comments and one-line texts *)

Module FlatFacts.

Import JsStringFacts.

Local Open Scope N_scope.

(** A text without line feed is one line. *)
Lemma split_lines_one (l : jsstring) : ~ In LF l -> split_lines l = [l].
Proof.
  induction l as [|c l IH]; intros Hn; [reflexivity|].
  assert (c <> LF) by (intros ->; apply Hn; left; reflexivity).
  destruct l as [|d l'].
  - apply split_lines_last; assumption.
  - rewrite split_lines_other; auto.
    + rewrite IH; [reflexivity|]. intros Hin. apply Hn. right. exact Hin.
    + intros _ ->. apply Hn. right; left; reflexivity.
Qed.

Local Open Scope Z_scope.

(** The declaration and comment branch: the trimmed line is appended
    as it is, and nothing else changes. *)
Lemma step_declaration (ic : jsstring) (keepNL : bool) (st : LoopState)
  (raw : jsstring) :
  startsWith (u "<?") (trim raw) || startsWith (u "<!--") (trim raw) = true ->
  step ic keepNL st raw
  = emit st (trim raw ++ [LF]) (depth st) (preserveWhitespace st).
Proof.
  intros H. unfold step. destruct (trim raw) as [|c t]; [discriminate|].
  rewrite H. reflexivity.
Qed.

Lemma classify_cons (c : char) (t : jsstring) :
  startsWith (u "<?") (c :: t) || startsWith (u "<!--") (c :: t) = false ->
  classify (c :: t) <> Blank /\ classify (c :: t) <> Declaration.
Proof.
  intros H. unfold classify. rewrite H. branches; split; discriminate.
Qed.

Lemma trimEnd_line_feed (l : jsstring) : trimEnd (trim l ++ [LF]) = trim l.
Proof.
  rewrite trimEnd_ws by (constructor; [reflexivity | constructor]).
  apply trim_trimEnd_fix.
Qed.

End FlatFacts.

Import FlatFacts.

(** X15: wherever it stands, in verbatim mode or not, a line whose
    trimmed content starts with [<?] or [<!--] is appended to the output
    as its trimmed content, without indent, and leaves the depth and the
    mode as the lines before it left them. *)
Theorem declaration_lines_flush_left (ic : jsstring) (keepNL : bool)
  (before : list jsstring) (raw : jsstring) (after : list jsstring)
  (st : LoopState) :
  startsWith (u "<?") (trim raw) || startsWith (u "<!--") (trim raw) = true ->
  (exists rest,
      formatted (run ic keepNL (before ++ raw :: after) st)
      = formatted (run ic keepNL before st) ++ (trim raw ++ [LF]) ++ rest)
  /\ depth (run ic keepNL (before ++ [raw]) st)
     = depth (run ic keepNL before st)
  /\ preserveWhitespace (run ic keepNL (before ++ [raw]) st)
     = preserveWhitespace (run ic keepNL before st).
Proof.
  intros H. rewrite !run_app, !run_cons.
  rewrite (step_declaration ic keepNL _ raw H).
  split; [|split; reflexivity].
  destruct (run_appends ic keepNL after
              (emit (run ic keepNL before st) (trim raw ++ [LF])
                 (depth (run ic keepNL before st))
                 (preserveWhitespace (run ic keepNL before st))))
    as (rest & E).
  exists rest. rewrite E. cbn [emit formatted].
  rewrite <- !app_assoc. reflexivity.
Qed.

Lemma declaration_lines_flush_left_witness :
  startsWith (u "<?") (trim (u "   <!-- note -->"))
  || startsWith (u "<!--") (trim (u "   <!-- note -->")) = true
  /\ exists rest,
       formatted (run (indentChar twoSpaces) true
                    ([u "<a>"; u "<b>"] ++ u "   <!-- note -->" :: [u "</b>"])
                    initialState)
       = formatted (run (indentChar twoSpaces) true [u "<a>"; u "<b>"]
                      initialState)
         ++ (u "<!-- note -->" ++ [LF]) ++ rest.
Proof.
  split; [reflexivity|].
  apply (proj1 (declaration_lines_flush_left (indentChar twoSpaces) true
                  [u "<a>"; u "<b>"] (u "   <!-- note -->") [u "</b>"]
                  initialState eq_refl)).
Defined.

(** X16: a text without line feed is one line at depth 0: the result is
    the text trimmed, whatever tags it holds; the formatter never breaks
    a line. *)
Theorem single_line_only_trimmed (content : jsstring)
  (o : FormattingOptions) (s : Settings) :
  ~ In LF content -> formatXml content o s = trim content.
Proof.
  intros Hn. unfold formatXml. rewrite (split_lines_one content Hn).
  unfold run. cbn [fold_left].
  destruct (trim content) as [|c t] eqn:E.
  - unfold step. rewrite E. destruct (keepsNewLines s); reflexivity.
  - destruct (startsWith (u "<?") (c :: t) || startsWith (u "<!--") (c :: t))
      eqn:Hd.
    + rewrite step_declaration by (rewrite E; exact Hd).
      cbn [emit formatted initialState app]. rewrite <- E.
      rewrite trimEnd_line_feed. reflexivity.
    + destruct (classify_cons c t Hd) as [N1 N2]. rewrite <- E in N1, N2.
      rewrite (step_kind_output (indentChar o) (keepsNewLines s) initialState
                 content eq_refl N1 N2).
      cbn [initialState formatted depth app].
      replace (indent (indentChar o)
                 match classify (trim content) with
                 | ClosingTag => Z.max 0 (0 - 1)
                 | _ => 0
                 end) with (@nil char)
        by (destruct (classify (trim content)); reflexivity).
      cbn [app]. rewrite trimEnd_line_feed. exact E.
Qed.

Lemma single_line_only_trimmed_witness :
  ~ In LF (u "  <a><b>text</b><c/></a>  ")
  /\ formatXml (u "  <a><b>text</b><c/></a>  ") twoSpaces emptySettings
     = u "<a><b>text</b><c/></a>".
Proof.
  split.
  - cbn. intros H.
    repeat match goal with
           | H : _ \/ _ |- _ => destruct H as [H|H]; [discriminate|]
           end.
    exact H.
  - apply (single_line_only_trimmed (u "  <a><b>text</b><c/></a>  ")
             twoSpaces emptySettings).
    cbn. intros H.
    repeat match goal with
           | H : _ \/ _ |- _ => destruct H as [H|H]; [discriminate|]
           end.
    exact H.
Defined.

(** X17: only a configuration change alters the global settings, and
    only when the change has a [settings] object: a change whose
    [settings] is [undefined] or [null] throws before anything is stored
    or validated; a change whose [settings] has no member [xml] stores
    the empty object. *)
Theorem global_settings_changes
  (getConfiguration : string -> Server.JsValue) (st : Server.ServerState) :
  (forall e,
      (forall change all, e <> Server.DidChangeConfiguration change all) ->
      Server.globalSettings (snd (Server.handle getConfiguration st e))
      = Server.globalSettings st)
  /\ (forall change all,
        Server.getMember change "settings" = Some Server.JsUndefined
        \/ Server.getMember change "settings" = Some Server.JsNull ->
        Server.onDidChangeConfiguration getConfiguration st change all = None
        /\ Server.handle getConfiguration st
             (Server.DidChangeConfiguration change all) = ([], st))
  /\ (forall members all,
        Server.lookup "xml" members = Server.JsUndefined ->
        Server.globalSettings
          (snd (Server.handle getConfiguration st
                  (Server.DidChangeConfiguration
                     (Server.JsObject
                        [("settings", Server.JsObject members)]) all)))
        = Server.JsObject []).
Proof.
  split; [|split].
  - intros [[fs|]| |change all|closed|changed] H; try reflexivity.
    + exfalso. apply (H change all). reflexivity.
    + cbn [Server.handle].
      destruct (validateTextDocument_state getConfiguration st changed)
        as [-> _]. reflexivity.
  - intros change all H.
    assert (E : Server.onDidChangeConfiguration getConfiguration st change all
                = None).
    { unfold Server.onDidChangeConfiguration.
      cbn [Server.hasConfigurationCapability].
      destruct H as [-> | ->]; reflexivity. }
    split; [exact E|]. cbn [Server.handle]. rewrite E. reflexivity.
  - intros members all H. cbn [Server.handle].
    unfold Server.onDidChangeConfiguration. cbn. rewrite H. cbn.
    match goal with
    | |- context [Server.validateAll _ ?s _] =>
        destruct (validateAll_state getConfiguration s all) as [-> _]
    end.
    reflexivity.
Qed.

Lemma global_settings_changes_witness :
  Server.getMember (Server.JsObject []) "settings" = Some Server.JsUndefined
  /\ Server.handle (fun _ => Server.JsUndefined) Server.initialServer
       (Server.DidChangeConfiguration (Server.JsObject [])
          [unformattedDocument])
     = ([], Server.initialServer)
  /\ Server.globalSettings
       (snd (Server.handle (fun _ => Server.JsUndefined) Server.initialServer
               (Server.DidClose "file:///a.xml")))
     = Server.JsObject [].
Proof.
  split; [reflexivity|]. split.
  - apply (proj1 (proj2 (global_settings_changes (fun _ => Server.JsUndefined)
                           Server.initialServer))).
    left. reflexivity.
  - apply (proj1 (global_settings_changes (fun _ => Server.JsUndefined)
                    Server.initialServer)).
    discriminate.
Defined.

Lemma completion_middleware_stable_witness :
  (forall range,
      Client.itemRange {| Client.label := "a"; Client.itemRange := Client.NoRange |}
      <> Client.PlainRange range)
  /\ Client.updateRanges (fun _ _ => true) (fun _ _ => true)
       (fun a b => {| start := a; end_ := b |})
       {| line := 0; character := 2 |}
       {| Client.label := "a"; Client.itemRange := Client.NoRange |}
     = {| Client.label := "a"; Client.itemRange := Client.NoRange |}.
Proof.
  split; [discriminate|].
  apply (proj2 (proj2 (completion_middleware_stable (fun _ _ => true)
                         (fun _ _ => true)
                         (fun a b => {| start := a; end_ := b |})
                         {| line := 0; character := 2 |} None))).
  discriminate.
Defined.
